(** * Dimensions query client: a shallow embedding of [dimensions.py]

    The class [DimensionsQuery] builds a query string for the Dimensions
    search service out of four fields, submits it through the [dimcli]
    client and counts values over the returned records with pandas.

    - [Py]         Python exceptions, the raise-or-return monad, attributes,
                   truthiness and dictionaries;
    - [Pandas]     the part of [Series] the aggregation routines use:
                   [value_counts] and [head];
    - [Dimensions] the class itself, method by method.

    Printing is not represented: each aggregation routine returns the
    frequency table that it prints.  Of the bar plot only the failure on an
    empty table is represented. *)

From Stdlib Require Import String Ascii List Arith Bool Lia Sorted Permutation.
Import ListNotations.
Open Scope string_scope.

(* ================================================================== *)
(** * Python values *)

Module Py.

(** The exceptions the program can raise or see.  [ClientError] stands for
    whatever the external client raises (transport, authentication, query
    syntax); the program never catches or inspects it. *)
Inductive exn : Type :=
| ValueError (msg : string)
| AttributeError (msg : string)
| KeyError (key : string)
| TypeError (msg : string)
| IndexError (msg : string)
| ClientError (msg : string).

Inductive result (A : Type) : Type :=
| Ok (a : A)
| Raise (e : exn).
Arguments Ok {A} a.
Arguments Raise {A} e.

Definition bind {A B : Type} (m : result A) (k : A -> result B) : result B :=
  match m with
  | Ok a => k a
  | Raise e => Raise e
  end.

Fixpoint mapM {A B : Type} (f : A -> result B) (l : list A) : result (list B) :=
  match l with
  | [] => Ok []
  | x :: l' =>
      bind (f x) (fun y => bind (mapM f l') (fun ys => Ok (y :: ys)))
  end.

(** The outcome of a call into an external library: it returns, or it
    raises an exception of its own, which propagates as it is. *)
Inductive external (A : Type) : Type :=
| Returns (a : A)
| Fails (msg : string).
Arguments Returns {A} a.
Arguments Fails {A} msg.

Definition extern {A : Type} (x : external A) : result A :=
  match x with
  | Returns a => Ok a
  | Fails msg => Raise (ClientError msg)
  end.

(** An instance attribute: it exists only once it has been assigned. *)
Inductive attr (A : Type) : Type :=
| NoAttr
| Attr (v : A).
Arguments NoAttr {A}.
Arguments Attr {A} v.

Definition no_attribute (name : string) : string :=
  "'DimensionsQuery' object has no attribute '" ++ name ++ "'".

Definition getattr {A : Type} (a : attr A) (name : string) : result A :=
  match a with
  | Attr v => Ok v
  | NoAttr => Raise (AttributeError (no_attribute name))
  end.

(** [if x:] on a value that is [None] or a [str]. *)
Definition truthy (x : option string) : bool :=
  match x with
  | None => false
  | Some EmptyString => false
  | Some (String _ _) => true
  end.

(** How an f-string formats a value that is [None] or a [str]. *)
Definition format (x : option string) : string :=
  match x with
  | None => "None"
  | Some s => s
  end.

(** A [dict] with string keys, as decoded from JSON. *)
Definition dict (V : Type) : Type := list (string * V).

Fixpoint dict_get {V : Type} (d : dict V) (key : string) : result V :=
  match d with
  | [] => Raise (KeyError key)
  | (k, v) :: d' => if String.eqb k key then Ok v else dict_get d' key
  end.

End Py.

Import Py.

Notation "x <- m ;; k" := (Py.bind m (fun x => k))
  (at level 61, m at next level, right associativity).

(* ================================================================== *)
(** * The query builder of [DimensionsQuery] *)

Module Query.

(** The double-quote character that the f-strings put around the topic. *)
Definition dquote : string := String (ascii_of_nat 34) EmptyString.

(** The text [update_query] computes out of the four query attributes.
    The two [if] tests are Python truth tests; inside an f-string a field
    is formatted with [format]. *)
Definition render (topic : string) (where_ : option string)
           (search : string) (return_cols : option string) : string :=
  let _return :=
    if truthy return_cols
    then "return " ++ search ++ "[" ++ format return_cols ++ "]"
    else "return " ++ search in
  if truthy where_
  then "search " ++ search ++ " for " ++ dquote ++ topic ++ dquote
       ++ " where " ++ format where_ ++ " " ++ _return
  else "search " ++ search ++ " for " ++ dquote ++ topic ++ dquote
       ++ " " ++ _return.

(** The shape the specification gives for the rendered query,
    [search <target> for <quoted topic> [where <clause>] return
    <target>[<projection>]], with a segment left out exactly when its field
    is [None]. *)
Definition spec_render (topic : string) (filter_clause : option string)
           (target : string) (projection : option string) : string :=
  "search " ++ target ++ " for " ++ dquote ++ topic ++ dquote
  ++ match filter_clause with
     | Some clause => " where " ++ clause
     | None => EmptyString
     end
  ++ " return " ++ target
  ++ match projection with
     | Some fields => "[" ++ fields ++ "]"
     | None => EmptyString
     end.

(** The segment a field contributes to the rendered text: nothing when the
    field fails Python's truth test, that is when it is [None] or the empty
    string. *)
Definition where_segment (where_ : option string) : string :=
  if truthy where_ then " where " ++ format where_ else EmptyString.

Definition return_segment (return_cols : option string) : string :=
  if truthy return_cols then "[" ++ format return_cols ++ "]" else EmptyString.

End Query.

(* ================================================================== *)
(** * The part of pandas the aggregation routines use *)

Module Pandas.

(** A cell of an object column: a string, or the missing value ([None] or
    NaN), here [None]. *)
Definition value : Type := option string.

Definition Series : Type := list value.

Definition isna (v : value) : bool :=
  match v with
  | None => true
  | Some _ => false
  end.

Definition notna (v : value) : bool := negb (isna v).

Definition value_eqb (u v : value) : bool :=
  match u, v with
  | None, None => true
  | Some a, Some b => String.eqb a b
  | _, _ => false
  end.

Definition dropna (s : Series) : Series := filter notna s.

(** The distinct values of a column in the order in which they are first
    seen, as the counting hash table hands them out. *)
Fixpoint unique (s : Series) : Series :=
  match s with
  | [] => []
  | v :: s' => v :: filter (fun u => negb (value_eqb v u)) (unique s')
  end.

(** Number of cells of [s] equal to [v]. *)
Definition occurrences (v : value) (s : Series) : nat :=
  List.length (filter (value_eqb v) s).

(** [Series.nunique()]: the number of distinct values, missing ones apart. *)
Definition nunique (s : Series) : nat := List.length (unique (dropna s)).

(** A frequency table: one row per value, with its count. *)
Definition counts : Type := list (value * nat).

(** [sort_values(ascending=False)] on the counts, as [value_counts] calls
    it.  pandas sorts with its default kind of sort, which puts rows with a
    larger count first and promises nothing on the order of rows with equal
    counts: the sort is an interface, any rearrangement of the rows by
    descending count fits it. *)
Class Sorter : Type := {
  sort_values : counts -> counts;
  sort_values_perm : forall t : counts, Permutation (sort_values t) t;
  sort_values_descending :
    forall t : counts,
      StronglySorted (fun a b : value * nat => snd b <= snd a) (sort_values t)
}.

(** [Series.value_counts(dropna=...)]: with [dropna] (the default) missing
    values are left out before counting. *)
Definition value_counts {sorter : Sorter} (drop : bool) (s : Series) : counts :=
  let kept := if drop then dropna s else s in
  sort_values (map (fun v => (v, occurrences v kept)) (unique kept)).

(** Two sorts that fit the interface.  The first leaves rows with equal
    counts in the order they came in, the second turns that order round. *)
Fixpoint insert_desc (x : value * nat) (t : counts) : counts :=
  match t with
  | [] => [x]
  | y :: t' =>
      if Nat.ltb (snd x) (snd y) then y :: insert_desc x t' else x :: y :: t'
  end.

Fixpoint sort_values_desc (t : counts) : counts :=
  match t with
  | [] => []
  | x :: t' => insert_desc x (sort_values_desc t')
  end.



Definition first_seen_sorter : Sorter.
Proof.
  refine {| sort_values := sort_values_desc |}.
  - induction t as [|x t IH]; simpl; [constructor|].
    apply Permutation_trans with (x :: sort_values_desc t);
      [|now constructor].
    clear IH. induction (sort_values_desc t) as [|y u IHu]; simpl;
      [apply Permutation_refl|].
    destruct (Nat.ltb (snd x) (snd y)); [|apply Permutation_refl].
    eapply Permutation_trans; [apply perm_skip, IHu | apply perm_swap].
  - induction t as [|x t IH]; simpl; [constructor|].
    revert IH. generalize (sort_values_desc t). intros u Hu.
    induction Hu as [|y u Hu IHu Hall]; simpl; [repeat constructor|].
    destruct (Nat.ltb (snd x) (snd y)) eqn:E.
    + apply Nat.ltb_lt in E. constructor; [exact IHu|].
      clear IHu Hu. induction u as [|z u IHz]; simpl.
      * repeat constructor. lia.
      * inversion Hall; subst.
        destruct (Nat.ltb (snd x) (snd z)); repeat constructor; auto; lia.
    + apply Nat.ltb_ge in E. constructor; [now constructor|].
      constructor; [lia|]. eapply Forall_impl; [|exact Hall].
      simpl. intros; lia.
Defined.


(** [Series.head(n)]. *)
Definition head (n : nat) (t : counts) : counts := firstn n t.

(** [Series.plot(kind='bar')]: drawing the bars of an empty table fails, the
    plot indexes the position of its first bar. *)
Definition plot_bar (t : counts) : result unit :=
  match t with
  | [] => Raise (IndexError "index 0 is out of bounds for axis 0 with size 0")
  | _ :: _ => Ok tt
  end.

(** Position of the first cell of [s] equal to [v] ([length s] when there
    is none). *)
Fixpoint first_index (v : value) (s : Series) : nat :=
  match s with
  | [] => 0
  | u :: s' => if value_eqb v u then 0 else S (first_index v s')
  end.

(** [rank_before s a b]: row [a] must stand above row [b] in a frequency
    table of column [s]: its count is larger, or the counts are equal and
    its value is seen first in [s]. *)
Definition rank_before (s : Series) (a b : value * nat) : Prop :=
  snd b < snd a \/
  (snd a = snd b /\ first_index (fst a) s < first_index (fst b) s).

End Pandas.

(* ================================================================== *)
(** * The class [DimensionsQuery] *)

Module Dimensions.

Import Query Pandas.

(** ** The records the service returns *)

(** An affiliation is a JSON object; its values are strings or null. *)
Definition affiliation : Type := dict (option string).

(** An author object: its researcher id (possibly null) and its list of
    affiliations (possibly empty). *)
Record author : Type := {
  researcher_id : option string;
  affiliations : list affiliation
}.

(** One row of the result table.  A record that lacks a field has NaN in
    that column: [None] here. *)
Record publication : Type := {
  journal_title : option string;
  authors : option (list author)
}.

Record DataFrame : Type := {
  columns : list string;
  rows : list publication
}.

(** ** The aggregation routines

    Each routine plots the table it computes, then prints it; the table is
    what the model returns.  [self] is read for the title of the chart
    only. *)

Section Routines_.

Context {sorter : Sorter}.

(** [df[name]]: a column that the table does not have is a [KeyError]. *)
Definition column {A : Type} (name : string) (cell : publication -> A)
           (df : DataFrame) : result (list A) :=
  if existsb (String.eqb name) (columns df)
  then Ok (map cell (rows df))
  else Raise (KeyError name).

(** [[author for authors in df['authors'] for author in authors]]: a NaN
    cell cannot be iterated. *)
Fixpoint flatten (cells : list (option (list author))) : result (list author) :=
  match cells with
  | [] => Ok []
  | None :: _ => Raise (TypeError "'float' object is not iterable")
  | Some l :: cells' => rest <- flatten cells' ;; Ok (l ++ rest)%list
  end.

(** [pd.DataFrame(list_of_authors)[name]]: the table built from an empty
    list has no column at all. *)
Definition authors_column {A : Type} (name : string) (cell : author -> A)
           (l : list author) : result (list A) :=
  match l with
  | [] => Raise (KeyError name)
  | _ :: _ => Ok (map cell l)
  end.

Definition authors_df (df : DataFrame) : result (list author) :=
  cells <- column "authors" authors df ;;
  flatten cells.

(** [lambda x: x[0][field] if x else None] *)
Definition first_affiliation (field : string) (x : list affiliation)
  : result value :=
  match x with
  | [] => Ok None
  | a :: _ => dict_get a field
  end.

Definition plot_most_common_journal (df : DataFrame) : result counts :=
  col <- column "journal.title" journal_title df ;;
  let journal_counts := value_counts true col in
  let top_journals := head 10 journal_counts in
  _ <- plot_bar top_journals ;;
  Ok top_journals.

Definition plot_publications_per_author (df : DataFrame) : result counts :=
  l <- authors_df df ;;
  col <- authors_column "researcher_id" researcher_id l ;;
  let author_counts := value_counts true col in
  let top_authors := head 10 author_counts in
  _ <- plot_bar top_authors ;;
  Ok top_authors.

Definition plot_most_common_country (df : DataFrame) : result counts :=
  l <- authors_df df ;;
  col <- authors_column "affiliations" affiliations l ;;
  countries <- mapM (first_affiliation "country") col ;;
  let country_counts := value_counts true countries in
  let top_countries := head 10 country_counts in
  _ <- plot_bar top_countries ;;
  Ok top_countries.

Definition plot_most_common_institutions (df : DataFrame) : result counts :=
  l <- authors_df df ;;
  col <- authors_column "affiliations" affiliations l ;;
  names <- mapM (first_affiliation "name") col ;;
  let institution_counts := value_counts true names in
  let top_institutions := head 10 institution_counts in
  _ <- plot_bar top_institutions ;;
  Ok top_institutions.

(** The end of each routine on the column [s] it counts: the first ten
    rows of the counts, plotted, then handed out. *)
Definition top_table (s : Series) : result counts :=
  let top := head 10 (value_counts true s) in
  _ <- plot_bar top ;;
  Ok top.

End Routines_.

(** ** The external client

    [dimcli] and the remote service are not part of the program: they are
    an interface the class is written against.  Every call may raise. *)
Class Dimcli : Type := {
  Dsl : Type;
  DslDataset : Type;
  (** [dimcli.login(key=..., endpoint=...)] followed by [dimcli.Dsl()] *)
  login : string -> string -> external Dsl;
  (** [dsl.query(text)] *)
  dsl_query : Dsl -> string -> external DslDataset;
  (** [response.stats['total_count']] *)
  total_count : DslDataset -> external nat;
  (** [response.as_dataframe()] *)
  as_dataframe : DslDataset -> external DataFrame;
  (** [response.copy()] on the client's own response object *)
  dataset_copy : DslDataset -> external DslDataset
}.

Section Class_.

Context {client : Dimcli} {sorter : Sorter}.

(** The process environment after [load_dotenv()]: [os.getenv]. *)
Variable getenv : string -> option string.

(** What [self.results] can hold: the table or the client's response. *)
Inductive results_value : Type :=
| ResFrame (df : DataFrame)
| ResDataset (d : DslDataset).

(** The attributes of an instance.  [query] and [results] hold Python
    values that the methods compare with [None]; [results] is assigned by
    [run_query] only. *)
Record DimensionsQuery : Type := {
  endpoint : string;
  api_key : option string;
  dsl : Dsl;
  topic : string;
  where_ : option string;
  search : string;
  return_cols : option string;
  query : attr (option string);
  results : attr (option results_value)
}.

Definition set_topic (v : string) (self : DimensionsQuery) : DimensionsQuery :=
  {| endpoint := endpoint self; api_key := api_key self; dsl := dsl self;
     topic := v; where_ := where_ self; search := search self;
     return_cols := return_cols self; query := query self;
     results := results self |}.

Definition set_where (v : option string) (self : DimensionsQuery) : DimensionsQuery :=
  {| endpoint := endpoint self; api_key := api_key self; dsl := dsl self;
     topic := topic self; where_ := v; search := search self;
     return_cols := return_cols self; query := query self;
     results := results self |}.

Definition set_search (v : string) (self : DimensionsQuery) : DimensionsQuery :=
  {| endpoint := endpoint self; api_key := api_key self; dsl := dsl self;
     topic := topic self; where_ := where_ self; search := v;
     return_cols := return_cols self; query := query self;
     results := results self |}.

Definition set_query (v : option string) (self : DimensionsQuery) : DimensionsQuery :=
  {| endpoint := endpoint self; api_key := api_key self; dsl := dsl self;
     topic := topic self; where_ := where_ self; search := search self;
     return_cols := return_cols self; query := Attr v;
     results := results self |}.

Definition set_results (v : option results_value) (self : DimensionsQuery)
  : DimensionsQuery :=
  {| endpoint := endpoint self; api_key := api_key self; dsl := dsl self;
     topic := topic self; where_ := where_ self; search := search self;
     return_cols := return_cols self; query := query self;
     results := Attr v |}.

(** *** Construction *)

Definition default_topic : string := "machine learning and healthcare".
Definition default_search : string := "publications".
Definition default_endpoint : string := "https://app.dimensions.ai".

Definition api_key_not_found : string :=
  "API key not found. Make sure to set DIMENSIONS_API_KEY in your .env file.".

(** [validate_key] reads [self.api_key] and [self.endpoint], the two
    attributes assigned before it runs. *)
Definition validate_key (api_key : option string) (endpoint : string)
  : result Dsl :=
  match api_key with
  | None => Raise (ValueError api_key_not_found)
  | Some key => extern (login key endpoint)
  end.

Definition update_query (self : DimensionsQuery) : DimensionsQuery :=
  set_query
    (Some (render (topic self) (where_ self) (search self) (return_cols self)))
    self.

Definition __init__ (topic : string) (where_ : option string)
           (search : string) (return_cols : option string)
           (endpoint : string) : result DimensionsQuery :=
  let api_key := getenv "DIMENSIONS_API_KEY" in
  dsl <- validate_key api_key endpoint ;;
  Ok (update_query
        {| endpoint := endpoint; api_key := api_key; dsl := dsl;
           topic := topic; where_ := where_; search := search;
           return_cols := return_cols; query := NoAttr;
           results := NoAttr |}).

(** *** The setters *)

Definition update_topic (topic : string) (self : DimensionsQuery) :=
  update_query (set_topic topic self).

Definition update_where (where_ : option string) (self : DimensionsQuery) :=
  update_query (set_where where_ self).

Definition update_search (search : string) (self : DimensionsQuery) :=
  update_query (set_search search self).

(** *** Submission *)

Definition query_not_specified : string :=
  "Query not specified. Use update_query method to set the query.".

(** [run_query] returns the instance as the call leaves it, and the value
    or the exception of the call.  [self.results] is assigned before the
    copy that is returned is taken. *)
Definition run_query (df : bool) (self : DimensionsQuery)
  : DimensionsQuery * result results_value :=
  match getattr (query self) "query" with
  | Raise e => (self, Raise e)
  | Ok None => (self, Raise (ValueError query_not_specified))
  | Ok (Some text) =>
      match (response <- extern (dsl_query (dsl self) text) ;;
             _ <- extern (total_count response) ;;
             if df
             then frame <- extern (as_dataframe response) ;; Ok (ResFrame frame)
             else Ok (ResDataset response)) with
      | Raise e => (self, Raise e)
      | Ok response =>
          (set_results (Some response) self,
           match response with
           | ResFrame frame => Ok (ResFrame frame)
           | ResDataset d => c <- extern (dataset_copy d) ;; Ok (ResDataset c)
           end)
      end
  end.

(** *** Analysis *)

Definition no_results : string :=
  "No results to analyze. Run the query first.".

(** The four frequency tables, in the order in which they are printed. *)
Definition analysis : Type := (counts * counts * counts * counts)%type.

Definition analyze_results (self : DimensionsQuery) : result analysis :=
  r <- getattr (results self) "results" ;;
  match r with
  | None => Raise (ValueError no_results)
  | Some v =>
      df <- match v with
            | ResFrame frame => Ok frame
            | ResDataset d => extern (as_dataframe d)
            end ;;
      journals <- plot_most_common_journal df ;;
      per_author <- plot_publications_per_author df ;;
      countries <- plot_most_common_country df ;;
      institutions <- plot_most_common_institutions df ;;
      Ok (journals, per_author, countries, institutions)
  end.

(** *** Sequences of calls *)

Inductive setter : Type :=
| UpdateTopic (topic : string)
| UpdateWhere (where_ : option string)
| UpdateSearch (search : string).

Definition apply_setter (c : setter) (self : DimensionsQuery) : DimensionsQuery :=
  match c with
  | UpdateTopic t => update_topic t self
  | UpdateWhere w => update_where w self
  | UpdateSearch s => update_search s self
  end.

(** Any call of a public method.  A call that raises leaves the instance
    as the method left it, and the caller goes on. *)
Inductive call : Type :=
| Setter (c : setter)
| UpdateQuery
| RunQuery (df : bool)
| AnalyzeResults.

Definition exec (c : call) (self : DimensionsQuery) : DimensionsQuery :=
  match c with
  | Setter s => apply_setter s self
  | UpdateQuery => update_query self
  | RunQuery df => fst (run_query df self)
  | AnalyzeResults => self
  end.

(** [run cs self]: the instance after the calls [cs], first to last. *)
Definition run (cs : list call) (self : DimensionsQuery) : DimensionsQuery :=
  fold_left (fun obj c => exec c obj) cs self.

Definition apply_setters (cs : list setter) (self : DimensionsQuery)
  : DimensionsQuery :=
  fold_left (fun obj c => apply_setter c obj) cs self.

(** The value a field holds after the setter calls [cs], first to last,
    when it held [v] before: that of the last call of its setter. *)
Fixpoint last_topic (cs : list setter) (v : string) : string :=
  match cs with
  | [] => v
  | UpdateTopic t :: cs' => last_topic cs' t
  | _ :: cs' => last_topic cs' v
  end.

Fixpoint last_where (cs : list setter) (v : option string) : option string :=
  match cs with
  | [] => v
  | UpdateWhere w :: cs' => last_where cs' w
  | _ :: cs' => last_where cs' v
  end.

Fixpoint last_search (cs : list setter) (v : string) : string :=
  match cs with
  | [] => v
  | UpdateSearch s :: cs' => last_search cs' s
  | _ :: cs' => last_search cs' v
  end.

(** The four tables [analyze_results] prints for the table [df]. *)
Definition analysis_of (df : DataFrame) : result analysis :=
  journals <- plot_most_common_journal df ;;
  per_author <- plot_publications_per_author df ;;
  countries <- plot_most_common_country df ;;
  institutions <- plot_most_common_institutions df ;;
  Ok (journals, per_author, countries, institutions).

(** The stored query is the rendering of the current fields. *)
Definition up_to_date (self : DimensionsQuery) : Prop :=
  query self
  = Attr (Some (render (topic self) (where_ self) (search self)
                       (return_cols self))).

End Class_.

End Dimensions.

(* ================================================================== *)
(** * Sample data and a sample client *)

Module Sample.

Import Pandas Dimensions.

(** A client that answers every query with one fixed table. *)
Definition fixed_client (answer : DataFrame) : Dimcli :=
  {| Dsl := string;
     DslDataset := DataFrame;
     login := fun key _ => Returns key;
     dsl_query := fun _ _ => Returns answer;
     total_count := fun d => Returns (List.length (rows d));
     as_dataframe := fun d => Returns d;
     dataset_copy := fun d => Returns d |}.

(** A client whose login rejects every key. *)
Definition rejecting_client : Dimcli :=
  {| Dsl := string;
     DslDataset := DataFrame;
     login := fun _ _ => Fails "401 Unauthorized";
     dsl_query := fun _ _ => Fails "not logged in";
     total_count := fun d => Returns (List.length (rows d));
     as_dataframe := fun d => Returns d;
     dataset_copy := fun d => Returns d |}.

(** A client whose login returns and whose queries fail. *)
Definition offline_client : Dimcli :=
  {| Dsl := string;
     DslDataset := DataFrame;
     login := fun key _ => Returns key;
     dsl_query := fun _ _ => Fails "connection refused";
     total_count := fun d => Returns (List.length (rows d));
     as_dataframe := fun d => Returns d;
     dataset_copy := fun d => Returns d |}.

Definition env_with_key (name : string) : option string :=
  if String.eqb name "DIMENSIONS_API_KEY" then Some "secret" else None.

Definition env_without_key (name : string) : option string := None.

Definition us_affiliation : affiliation :=
  [("country", Some "US"); ("name", Some "Stanford University")].

Definition us_author (id : string) : author :=
  {| researcher_id := Some id; affiliations := [us_affiliation] |}.

(** An author object whose affiliations list is empty. *)
Definition unaffiliated_author (id : string) : author :=
  {| researcher_id := Some id; affiliations := [] |}.

(** Three records: the first has a US author and an author without
    affiliation, the second and the third have one US author each. *)
Definition three_records : DataFrame :=
  {| columns := ["id"; "authors"; "journal.title"];
     rows :=
       [ {| journal_title := Some "Nature";
            authors := Some [us_author "ur.1"; unaffiliated_author "ur.2"] |};
         {| journal_title := Some "Nature";
            authors := Some [us_author "ur.3"] |};
         {| journal_title := Some "Science";
            authors := Some [us_author "ur.4"] |} ] |}.

(** One record whose two authors are a US author and an author without
    affiliation. *)
Definition one_record : DataFrame :=
  {| columns := ["id"; "authors"];
     rows :=
       [ {| journal_title := None;
            authors := Some [us_author "ur.1"; unaffiliated_author "ur.2"] |} ] |}.



End Sample.

(* ================================================================== *)
(** * The rendered query *)

Module QueryProofs.

Import Query.

Lemma append_empty_r (s : string) : s ++ EmptyString = s.
Proof.
  induction s as [|c s IH]; simpl; [reflexivity | now rewrite IH].
Qed.

Lemma truthy_false (x : option string) :
  truthy x = false <-> x = None \/ x = Some EmptyString.
Proof.
  destruct x as [[|c s]|]; simpl; split; intros H; auto;
    try discriminate; destruct H as [H|H]; discriminate.
Qed.

Lemma truthy_some (s : string) : s <> EmptyString -> truthy (Some s) = true.
Proof.
  destruct s; [congruence | reflexivity].
Qed.

(** The rendered text, segment by segment: each optional segment is there
    when its field passes the truth test. *)
Lemma render_segments (topic : string) (where_ : option string)
      (search : string) (return_cols : option string) :
  render topic where_ search return_cols
  = "search " ++ search ++ " for " ++ dquote ++ topic ++ dquote
    ++ where_segment where_ ++ " return " ++ search
    ++ return_segment return_cols.
Proof.
  unfold render, where_segment, return_segment.
  destruct (truthy where_) eqn:Hw, (truthy return_cols) eqn:Hr; simpl;
    rewrite ?append_empty_r; reflexivity.
Qed.

(** C4, as amended.  The rendered query is [search <target> for
    <quoted topic>], then the where segment, then [return <target>], then
    the bracketed projection; a segment is left out exactly when its field
    is [None] or the empty string.  So the text is the shape the
    specification gives whenever neither field is the empty string: with
    no filter and no projection it is the bare form, and with a non-empty
    filter [X] and a non-empty projection it is the full form. *)
Theorem render_shape (topic : string) (where_ : option string)
        (search : string) (return_cols : option string) :
  render topic where_ search return_cols
  = "search " ++ search ++ " for " ++ dquote ++ topic ++ dquote
    ++ where_segment where_ ++ " return " ++ search
    ++ return_segment return_cols
  /\ (where_segment where_ = EmptyString
      <-> where_ = None \/ where_ = Some EmptyString)
  /\ (return_segment return_cols = EmptyString
      <-> return_cols = None \/ return_cols = Some EmptyString)
  /\ (where_ <> Some EmptyString -> return_cols <> Some EmptyString ->
      render topic where_ search return_cols
      = spec_render topic where_ search return_cols)
  /\ render topic None search None
     = "search " ++ search ++ " for " ++ dquote ++ topic ++ dquote
       ++ " return " ++ search
  /\ (forall X cols : string,
        X <> EmptyString -> cols <> EmptyString ->
        render topic (Some X) search (Some cols)
        = "search " ++ search ++ " for " ++ dquote ++ topic ++ dquote
          ++ " where " ++ X ++ " return " ++ search ++ "[" ++ cols ++ "]").
Proof.
  split; [apply render_segments|].
  split.
  { unfold where_segment. destruct where_ as [[|c w]|]; simpl; split;
      intros H; auto; try discriminate; destruct H; discriminate. }
  split.
  { unfold return_segment. destruct return_cols as [[|c r]|]; simpl; split;
      intros H; auto; try discriminate; destruct H; discriminate. }
  split.
  { intros Hw Hr. rewrite render_segments. unfold spec_render.
    destruct where_ as [[|c w]|]; [congruence| |];
      (destruct return_cols as [[|d r]|]; [congruence| |]); reflexivity. }
  split.
  { unfold render. simpl. reflexivity. }
  intros X cols HX Hcols. rewrite render_segments.
  unfold where_segment, return_segment.
  rewrite (truthy_some X HX), (truthy_some cols Hcols). reflexivity.
Qed.

Lemma render_shape_witness :
  render "deep learning" (Some "year=2020") "publications" (Some "id+title")
  = spec_render "deep learning" (Some "year=2020") "publications"
                (Some "id+title").
Proof.
  destruct (render_shape "deep learning" (Some "year=2020") "publications"
                         (Some "id+title")) as (_ & _ & _ & H & _).
  apply H; discriminate.
Defined.

(** C4, the claim as it stands, fails on an empty filter clause: the field
    is there, and the where segment is left out all the same. *)
Lemma render_empty_filter_not_spec_shape :
  render "deep learning" (Some EmptyString) "publications" None
  <> spec_render "deep learning" (Some EmptyString) "publications" None.
Proof.
  vm_compute. discriminate.
Qed.

End QueryProofs.

(* ================================================================== *)
(** * Construction, setters and the order of calls *)

Module ClassProofs.

Import Query Pandas Dimensions.

Section Instance_.

Context {client : Dimcli} {sorter : Sorter}.
Variable getenv : string -> option string.

Lemma update_query_up_to_date (self : DimensionsQuery) :
  up_to_date (update_query self).
Proof. reflexivity. Qed.

Lemma apply_setter_up_to_date (c : setter) (self : DimensionsQuery) :
  up_to_date (apply_setter c self).
Proof. destruct c; reflexivity. Qed.

Lemma run_query_keeps_fields (df : bool) (self : DimensionsQuery) :
  let self' := fst (run_query df self) in
  topic self' = topic self /\ where_ self' = where_ self /\
  search self' = search self /\ return_cols self' = return_cols self /\
  query self' = query self.
Proof.
  unfold run_query.
  destruct (getattr (query self) "query") as [[text|]|e]; simpl; auto.
  match goal with |- context [match ?m with Ok _ => _ | Raise _ => _ end] =>
    destruct m as [response|e] end; simpl; auto.
Qed.

Lemma exec_up_to_date (c : call) (self : DimensionsQuery) :
  up_to_date self -> up_to_date (exec c self).
Proof.
  intros H. destruct c as [s| |df|]; simpl.
  - apply apply_setter_up_to_date.
  - apply update_query_up_to_date.
  - destruct (run_query_keeps_fields df self) as (Ht & Hw & Hs & Hr & Hq).
    unfold up_to_date. rewrite Ht, Hw, Hs, Hr, Hq. exact H.
  - exact H.
Qed.

Lemma run_up_to_date (cs : list call) (self : DimensionsQuery) :
  up_to_date self -> up_to_date (run cs self).
Proof.
  revert self. induction cs as [|c cs IH]; intros self H; simpl.
  - exact H.
  - apply IH, exec_up_to_date, H.
Qed.

Lemma apply_setters_up_to_date (cs : list setter) (self : DimensionsQuery) :
  up_to_date self -> up_to_date (apply_setters cs self).
Proof.
  revert self. induction cs as [|c cs IH]; intros self H; simpl.
  - exact H.
  - apply IH, apply_setter_up_to_date.
Qed.

Lemma init_inv (topic : string) (where_ : option string) (search : string)
      (return_cols : option string) (endpoint : string)
      (self : DimensionsQuery) :
  __init__ getenv topic where_ search return_cols endpoint = Ok self ->
  exists (key : string) (session : Dsl),
    getenv "DIMENSIONS_API_KEY" = Some key /\
    login key endpoint = Returns session /\
    self = update_query
             {| Dimensions.endpoint := endpoint; api_key := Some key;
                dsl := session; Dimensions.topic := topic;
                Dimensions.where_ := where_; Dimensions.search := search;
                Dimensions.return_cols := return_cols; query := NoAttr;
                results := NoAttr |}.
Proof.
  unfold __init__, validate_key.
  destruct (getenv "DIMENSIONS_API_KEY") as [key|]; simpl; [|discriminate].
  destruct (login key endpoint) as [session|msg] eqn:Hlogin; simpl;
    [|discriminate].
  intros H. injection H as <-. exists key, session.
  repeat split; auto.
Qed.

Lemma init_up_to_date (topic : string) (where_ : option string)
      (search : string) (return_cols : option string) (endpoint : string)
      (self : DimensionsQuery) :
  __init__ getenv topic where_ search return_cols endpoint = Ok self ->
  up_to_date self.
Proof.
  intros H. apply init_inv in H. destruct H as (key & session & _ & _ & ->).
  reflexivity.
Qed.

Lemma apply_setters_results (cs : list setter) (self : DimensionsQuery) :
  results (apply_setters cs self) = results self.
Proof.
  revert self. induction cs as [|c cs IH]; intros self; simpl.
  - reflexivity.
  - rewrite IH. destruct c; reflexivity.
Qed.

Lemma topic_where_commute (t : string) (w : option string)
      (self : DimensionsQuery) :
  update_where w (update_topic t self) = update_topic t (update_where w self).
Proof. reflexivity. Qed.

Lemma topic_search_commute (t s : string) (self : DimensionsQuery) :
  update_search s (update_topic t self) = update_topic t (update_search s self).
Proof. reflexivity. Qed.

Lemma where_search_commute (w : option string) (s : string)
      (self : DimensionsQuery) :
  update_search s (update_where w self) = update_where w (update_search s self).
Proof. reflexivity. Qed.

(** The same setter called twice keeps the last argument only: the order of
    two calls of one setter shows in the result, which is why commutation is
    stated for setters of different fields. *)
Lemma same_setter_last_wins (t t' : string) (self : DimensionsQuery) :
  update_topic t' (update_topic t self) = update_topic t' self.
Proof. reflexivity. Qed.

(** C5, as amended.  Without the credential in the environment,
    construction raises the missing-credential [ValueError]: the failure is
    that of [__init__], so no instance exists that could be submitted.  With
    the credential there, construction never raises that error: it hands the
    key to the client's login; when the login returns a session it yields an
    instance that holds it, and when the login raises, that exception comes
    out of the construction. *)
Theorem construction_needs_credential
        (topic : string) (where_ : option string) (search : string)
        (return_cols : option string) (endpoint : string) :
  (getenv "DIMENSIONS_API_KEY" = None ->
   __init__ getenv topic where_ search return_cols endpoint
   = Raise (ValueError api_key_not_found))
  /\ (forall key : string,
        getenv "DIMENSIONS_API_KEY" = Some key ->
        __init__ getenv topic where_ search return_cols endpoint
        <> Raise (ValueError api_key_not_found))
  /\ (forall (key : string) (session : Dsl),
        getenv "DIMENSIONS_API_KEY" = Some key ->
        login key endpoint = Returns session ->
        exists self : DimensionsQuery,
          __init__ getenv topic where_ search return_cols endpoint = Ok self
          /\ dsl self = session /\ api_key self = Some key)
  /\ (forall key msg : string,
        getenv "DIMENSIONS_API_KEY" = Some key ->
        login key endpoint = Fails msg ->
        __init__ getenv topic where_ search return_cols endpoint
        = Raise (ClientError msg)).
Proof.
  unfold __init__, validate_key. repeat split.
  - intros ->. reflexivity.
  - intros key ->. simpl. destruct (login key endpoint); simpl; discriminate.
  - intros key session -> ->. simpl. eexists. repeat split.
  - intros key msg -> ->. reflexivity.
Qed.

(** C6.  Two setters of different fields commute: whatever the starting
    instance and the arguments, the stored query text is the same in
    either order, for topic and filter, topic and search target, filter
    and search target. *)
Theorem setters_commute (self : DimensionsQuery) (t : string)
        (w : option string) (s : string) :
  query (update_where w (update_topic t self))
  = query (update_topic t (update_where w self))
  /\ query (update_search s (update_topic t self))
     = query (update_topic t (update_search s self))
  /\ query (update_search s (update_where w self))
     = query (update_where w (update_search s self)).
Proof.
  rewrite topic_where_commute, topic_search_commute, where_search_commute.
  repeat split.
Qed.

(** C7.  After construction, and after every sequence of setter calls,
    the stored query is the rendering of the current topic, filter,
    search target and projection. *)
Theorem query_never_stale
        (topic : string) (where_ : option string) (search : string)
        (return_cols : option string) (endpoint : string)
        (self : DimensionsQuery) (cs : list setter) :
  __init__ getenv topic where_ search return_cols endpoint = Ok self ->
  query self = Attr (Some (render topic where_ search return_cols))
  /\ let obj := apply_setters cs self in
     query obj
     = Attr (Some (render (Dimensions.topic obj) (Dimensions.where_ obj)
                          (Dimensions.search obj)
                          (Dimensions.return_cols obj))).
Proof.
  intros H. split.
  - apply init_inv in H. destruct H as (key & session & _ & _ & ->).
    reflexivity.
  - apply (apply_setters_up_to_date cs), (init_up_to_date _ _ _ _ _ _ H).
Qed.

(** C9.  An instance produced by construction holds a query text, and so
    does the instance after any sequence of calls of its methods: the
    [None] test at the head of [run_query] never fires, and [run_query]
    raises no [ValueError]. *)
Theorem query_guard_unreachable
        (topic : string) (where_ : option string) (search : string)
        (return_cols : option string) (endpoint : string)
        (self : DimensionsQuery) (cs : list call) (df : bool) :
  __init__ getenv topic where_ search return_cols endpoint = Ok self ->
  (exists text : string, query self = Attr (Some text))
  /\ (exists text : string, query (run cs self) = Attr (Some text))
  /\ snd (run_query df (run cs self)) <> Raise (ValueError query_not_specified)
  /\ (forall msg : string,
        snd (run_query df (run cs self)) <> Raise (ValueError msg)).
Proof.
  intros H. pose proof (init_up_to_date _ _ _ _ _ _ H) as H0.
  pose proof (run_up_to_date cs self H0) as Hrun.
  assert (Hno : forall msg : string,
             snd (run_query df (run cs self)) <> Raise (ValueError msg)).
  { intros msg. unfold run_query. rewrite Hrun. simpl.
    destruct (dsl_query (dsl (run cs self)) _) as [response|m]; simpl;
      [|discriminate].
    destruct (total_count response) as [n|m]; simpl; [|discriminate].
    destruct df; simpl.
    - destruct (as_dataframe response) as [frame|m]; simpl; discriminate.
    - destruct (dataset_copy response) as [c|m]; simpl; discriminate. }
  repeat split; eauto.
Qed.

(** C10.  An empty-string filter renders as no filter, an empty-string
    projection as no projection; setting the filter to the empty string
    leaves the same query text as setting it to [None]. *)
Theorem empty_string_renders_as_absent
        (self : DimensionsQuery) (topic search : string)
        (where_ return_cols : option string) :
  render topic (Some EmptyString) search return_cols
  = render topic None search return_cols
  /\ render topic where_ search (Some EmptyString)
     = render topic where_ search None
  /\ query (update_where (Some EmptyString) self)
     = query (update_where None self).
Proof.
  repeat split.
Qed.

(** C3, on the code.  On an instance that has only been constructed and
    had its setters called, [analyze_results] raises [AttributeError]:
    [self.results] was never assigned, so reading it fails before the
    [None] test that would raise the [ValueError]. *)
Theorem analyze_before_submit_raises_AttributeError
        (topic : string) (where_ : option string) (search : string)
        (return_cols : option string) (endpoint : string)
        (self : DimensionsQuery) (cs : list setter) :
  __init__ getenv topic where_ search return_cols endpoint = Ok self ->
  analyze_results (apply_setters cs self)
  = Raise (AttributeError (no_attribute "results"))
  /\ analyze_results (apply_setters cs self) <> Raise (ValueError no_results).
Proof.
  intros H. apply init_inv in H. destruct H as (key & session & _ & _ & ->).
  assert (E : analyze_results
                (apply_setters cs
                   (update_query
                      {| Dimensions.endpoint := endpoint;
                         api_key := Some key; dsl := session;
                         Dimensions.topic := topic;
                         Dimensions.where_ := where_;
                         Dimensions.search := search;
                         Dimensions.return_cols := return_cols;
                         query := NoAttr; results := NoAttr |}))
              = Raise (AttributeError (no_attribute "results"))).
  { unfold analyze_results. rewrite apply_setters_results. reflexivity. }
  split; [exact E | rewrite E; discriminate].
Qed.

End Instance_.

Import Sample.

Lemma construction_needs_credential_witness :
  __init__ (client := fixed_client three_records) env_without_key
           "deep learning" None "publications" None default_endpoint
  = Raise (ValueError api_key_not_found)
  /\ exists self : DimensionsQuery,
       __init__ (client := fixed_client three_records) env_with_key
                "deep learning" None "publications" None default_endpoint
       = Ok self
       /\ dsl self = "secret" /\ api_key self = Some "secret".
Proof.
  split.
  - apply (construction_needs_credential
             (client := fixed_client three_records) env_without_key).
    reflexivity.
  - apply (proj1 (proj2 (proj2 (construction_needs_credential
                                  (client := fixed_client three_records)
                                  env_with_key "deep learning" None
                                  "publications" None default_endpoint)))
                 "secret" "secret");
      reflexivity.
Defined.

(** C5, the claim as it stands, fails: the credential is in the environment,
    the client's login rejects it, and construction yields no instance. *)
Lemma credential_present_construction_fails :
  env_with_key "DIMENSIONS_API_KEY" = Some "secret"
  /\ __init__ (client := rejecting_client) env_with_key
              "deep learning" None "publications" None default_endpoint
     = Raise (ClientError "401 Unauthorized")
  /\ ~ (exists self : DimensionsQuery,
           __init__ (client := rejecting_client) env_with_key
                    "deep learning" None "publications" None default_endpoint
           = Ok self).
Proof.
  split; [reflexivity|]. split; [reflexivity|].
  intros (self & H). discriminate H.
Qed.

Lemma query_never_stale_witness :
  exists self : DimensionsQuery,
    __init__ (client := fixed_client three_records) env_with_key
             "deep learning" None "publications" (Some "id+title")
             default_endpoint = Ok self
    /\ query (apply_setters [UpdateTopic "malaria"; UpdateWhere (Some "year=2021")]
                            self)
       = Attr (Some (render "malaria" (Some "year=2021") "publications"
                            (Some "id+title"))).
Proof.
  eexists. split; [reflexivity|].
  apply (query_never_stale (client := fixed_client three_records)
           env_with_key "deep learning" None "publications"
           (Some "id+title") default_endpoint).
  reflexivity.
Defined.

Lemma query_guard_unreachable_witness :
  exists self : DimensionsQuery,
    __init__ (client := fixed_client three_records) env_with_key
             "deep learning" None "publications" None default_endpoint
    = Ok self
    /\ snd (run_query true
              (run [RunQuery false; Setter (UpdateWhere None); AnalyzeResults]
                   self))
       <> Raise (ValueError query_not_specified).
Proof.
  eexists. split; [reflexivity|].
  apply (query_guard_unreachable (client := fixed_client three_records)
           env_with_key "deep learning" None "publications" None
           default_endpoint).
  reflexivity.
Defined.

Lemma analyze_before_submit_witness :
  exists self : DimensionsQuery,
    __init__ (client := fixed_client three_records) env_with_key
             "deep learning" None "publications" None default_endpoint
    = Ok self
    /\ analyze_results (sorter := first_seen_sorter) self
       = Raise (AttributeError (no_attribute "results")).
Proof.
  eexists. split; [reflexivity|].
  apply (analyze_before_submit_raises_AttributeError
           (client := fixed_client three_records)
           (sorter := first_seen_sorter) env_with_key
           "deep learning" None "publications" None default_endpoint _ []).
  reflexivity.
Defined.

End ClassProofs.

(* ================================================================== *)
(** * Frequency tables *)

Module PandasProofs.

Import Pandas.

Lemma value_eqb_eq (u v : value) : value_eqb u v = true <-> u = v.
Proof.
  destruct u as [a|], v as [b|]; simpl; split; intros H;
    try discriminate; try reflexivity.
  - apply String.eqb_eq in H. now subst.
  - injection H as ->. apply String.eqb_refl.
Qed.

Lemma value_eqb_refl (v : value) : value_eqb v v = true.
Proof. now apply value_eqb_eq. Qed.

Lemma value_eqb_neq (u v : value) : value_eqb u v = false <-> u <> v.
Proof.
  split.
  - intros H E. apply value_eqb_eq in E. congruence.
  - intros H. destruct (value_eqb u v) eqn:E; [|reflexivity].
    apply value_eqb_eq in E. contradiction.
Qed.

(** ** Sorted lists *)

Section Sorted_.

Context {A : Type}.

Lemma StronglySorted_weaken (R R' : A -> A -> Prop) (l : list A) :
  (forall a b, In a l -> In b l -> R a b -> R' a b) ->
  StronglySorted R l -> StronglySorted R' l.
Proof.
  intros Himp Hs. induction Hs as [|a l Hs IH Hall]; constructor.
  - apply IH. intros x y Hx Hy. apply Himp; now right.
  - rewrite Forall_forall in *. intros b Hb.
    apply Himp; [now left | now right | now apply Hall].
Qed.

Lemma StronglySorted_filter (R : A -> A -> Prop) (p : A -> bool) (l : list A) :
  StronglySorted R l -> StronglySorted R (filter p l).
Proof.
  intros Hs. induction Hs as [|a l Hs IH Hall]; simpl; [constructor|].
  destruct (p a); [|exact IH]. constructor; [exact IH|].
  rewrite Forall_forall in *. intros b Hb. apply filter_In in Hb.
  now apply Hall.
Qed.



Lemma StronglySorted_map_inv {B : Type} (R : B -> B -> Prop) (f : A -> B)
      (l : list A) :
  StronglySorted (fun a b => R (f a) (f b)) l -> StronglySorted R (map f l).
Proof.
  intros Hs. induction Hs as [|a l Hs IH Hall]; simpl; constructor; auto.
  rewrite Forall_forall in *. intros b Hb. apply in_map_iff in Hb.
  destruct Hb as (x & <- & Hx). now apply Hall.
Qed.

End Sorted_.

(** ** Distinct values, in the order they are first seen *)

Lemma In_unique (v : value) (s : Series) : In v (unique s) <-> In v s.
Proof.
  induction s as [|u s IH]; simpl; [tauto|].
  rewrite filter_In, IH. split.
  - intros [H|[H _]]; auto.
  - intros [H|H]; auto.
    destruct (value_eqb u v) eqn:E.
    + left. now apply value_eqb_eq.
    + right. now split.
Qed.

Lemma In_dropna (v : value) (s : Series) :
  In v (dropna s) <-> In v s /\ v <> None.
Proof.
  unfold dropna. rewrite filter_In. destruct v as [x|]; cbn; split;
    intros [H1 H2]; split; auto; try discriminate; now elim H2.
Qed.

Lemma first_index_head (v : value) (s : Series) :
  first_index v (v :: s) = 0.
Proof. simpl. now rewrite value_eqb_refl. Qed.

Lemma first_index_tail (v u : value) (s : Series) :
  v <> u -> first_index v (u :: s) = S (first_index v s).
Proof.
  intros H. simpl. apply value_eqb_neq in H. now rewrite H.
Qed.

(** The distinct values that are not missing stand in the order of their
    first occurrence in the column. *)
Lemma unique_dropna_first_seen (s : Series) :
  StronglySorted (fun a b => first_index a s < first_index b s)
                 (unique (dropna s)).
Proof.
  induction s as [|u s IH]; [constructor|].
  destruct u as [x|].
  - change (dropna (Some x :: s)) with (Some x :: dropna s).
    change (unique (Some x :: dropna s))
      with (Some x :: filter (fun u => negb (value_eqb (Some x) u))
                             (unique (dropna s))).
    constructor.
    + eapply StronglySorted_weaken;
        [|apply StronglySorted_filter; exact IH].
      intros a b Ha Hb Hab. apply filter_In in Ha, Hb.
      destruct Ha as [_ Ha], Hb as [_ Hb].
      apply negb_true_iff, value_eqb_neq in Ha, Hb.
      cbv beta in *. rewrite !first_index_tail by congruence. lia.
    + rewrite Forall_forall. intros b Hb. apply filter_In in Hb.
      destruct Hb as [_ Hb]. apply negb_true_iff, value_eqb_neq in Hb.
      rewrite first_index_head, first_index_tail by congruence. lia.
  - change (dropna (None :: s)) with (dropna s).
    eapply StronglySorted_weaken; [|exact IH].
    intros a b Ha Hb Hab. apply In_unique, In_dropna in Ha, Hb.
    destruct Ha as [_ Ha], Hb as [_ Hb].
    cbv beta in *. rewrite !first_index_tail by assumption. lia.
Qed.

Lemma occurrences_dropna (v : value) (s : Series) :
  v <> None -> occurrences v (dropna s) = occurrences v s.
Proof.
  intros Hv. unfold occurrences, dropna.
  induction s as [|u s IH]; simpl; [reflexivity|].
  destruct u as [x|]; simpl.
  - destruct (value_eqb v (Some x)); simpl; now rewrite IH.
  - destruct v; [simpl; exact IH | congruence].
Qed.

Lemma occurrences_pos (v : value) (s : Series) :
  In v s -> 0 < occurrences v s.
Proof.
  unfold occurrences. induction s as [|u s IH]; simpl; [contradiction|].
  intros [->|H].
  - rewrite value_eqb_refl. simpl. lia.
  - destruct (value_eqb v u); simpl; auto with arith.
Qed.

(** ** The sort that leaves equal counts in their incoming order *)

Lemma In_insert_desc (z x : value * nat) (t : counts) :
  In z (insert_desc x t) <-> z = x \/ In z t.
Proof.
  induction t as [|y t IH]; simpl.
  - split; intros [H|H]; auto.
  - destruct (Nat.ltb (snd x) (snd y)); simpl; rewrite ?IH; split;
      intros H; intuition auto.
Qed.

Lemma In_sort_values_desc (z : value * nat) (t : counts) :
  In z (sort_values_desc t) <-> In z t.
Proof.
  induction t as [|x t IH]; simpl; [tauto|].
  rewrite In_insert_desc, IH. split; intros [H|H]; auto.
Qed.

Lemma length_insert_desc (x : value * nat) (t : counts) :
  List.length (insert_desc x t) = S (List.length t).
Proof.
  induction t as [|y t IH]; simpl; [reflexivity|].
  destruct (Nat.ltb (snd x) (snd y)); simpl; now rewrite ?IH.
Qed.

Lemma length_sort_values_desc (t : counts) :
  List.length (sort_values_desc t) = List.length t.
Proof.
  induction t as [|x t IH]; simpl; [reflexivity|].
  now rewrite length_insert_desc, IH.
Qed.

(** Inserting a row that was seen before all the rows of a ranked table
    leaves the table ranked: the row goes above the first row whose count
    is not larger than its own. *)
Lemma insert_desc_ranked (s : Series) (x : value * nat) (t : counts) :
  StronglySorted (rank_before s) t ->
  Forall (fun y => first_index (fst x) s < first_index (fst y) s) t ->
  StronglySorted (rank_before s) (insert_desc x t).
Proof.
  intros Hs. induction Hs as [|y t Hs IH Hall]; intros Hx; simpl.
  - repeat constructor.
  - inversion Hx as [|? ? Hxy Hxt]; subst.
    destruct (Nat.ltb (snd x) (snd y)) eqn:E.
    + apply Nat.ltb_lt in E. constructor; [now apply IH|].
      rewrite Forall_forall in *. intros z Hz.
      rewrite In_insert_desc in Hz. destruct Hz as [->|Hz].
      * left. exact E.
      * now apply Hall.
    + apply Nat.ltb_ge in E. constructor; [now constructor|].
      constructor.
      * unfold rank_before. lia.
      * rewrite Forall_forall in *. intros z Hz.
        specialize (Hall z Hz). specialize (Hxt z Hz).
        unfold rank_before in *. lia.
Qed.

Lemma sort_values_desc_ranked (s : Series) (t : counts) :
  StronglySorted
    (fun a b => first_index (fst a) s < first_index (fst b) s) t ->
  StronglySorted (rank_before s) (sort_values_desc t).
Proof.
  intros Hs. induction Hs as [|x t Hs IH Hall]; simpl; [constructor|].
  apply insert_desc_ranked; [exact IH|].
  rewrite Forall_forall in *. intros y Hy.
  rewrite In_sort_values_desc in Hy. now apply Hall.
Qed.

(** With the sort that leaves equal counts in their incoming order, the
    table stands by descending count, rows of equal count in the order in
    which their values are first seen. *)
Lemma first_seen_value_counts_ranked (s : Series) :
  StronglySorted (rank_before s)
                 (value_counts (sorter := first_seen_sorter) true s).
Proof.
  unfold value_counts. cbn [sort_values first_seen_sorter].
  apply sort_values_desc_ranked.
  apply StronglySorted_map_inv. simpl. apply unique_dropna_first_seen.
Qed.

(** ** [value_counts] and [head], whatever the sort *)

Section AnySort_.

Context {sorter : Sorter}.

Lemma In_sort_values (z : value * nat) (t : counts) :
  In z (sort_values t) <-> In z t.
Proof.
  split; apply Permutation_in;
    [apply sort_values_perm | apply Permutation_sym, sort_values_perm].
Qed.

Lemma length_sort_values (t : counts) :
  List.length (sort_values t) = List.length t.
Proof. apply Permutation_length, sort_values_perm. Qed.

Lemma In_value_counts (k : value) (n : nat) (s : Series) :
  In (k, n) (value_counts true s)
  <-> In k s /\ k <> None /\ n = occurrences k s.
Proof.
  unfold value_counts. rewrite In_sort_values, in_map_iff. split.
  - intros (v & E & Hv). injection E as -> <-.
    apply In_unique, In_dropna in Hv. destruct Hv as [Hin Hna].
    repeat split; auto. now apply occurrences_dropna.
  - intros (Hin & Hna & ->). exists k. split.
    + now rewrite occurrences_dropna.
    + now apply In_unique, In_dropna.
Qed.

Lemma length_value_counts (s : Series) :
  List.length (value_counts true s) = nunique s.
Proof.
  unfold value_counts, nunique.
  now rewrite length_sort_values, length_map.
Qed.


(** Missing values do not change the counts. *)
Lemma value_counts_skips_missing (s1 s2 : Series) :
  value_counts true (s1 ++ None :: s2)%list
  = value_counts true (s1 ++ s2)%list.
Proof.
  unfold value_counts, dropna. now rewrite !filter_app.
Qed.


(** A table with one row is left as it is by every sort. *)
Lemma sort_values_one_row (r : value * nat) : sort_values [r] = [r].
Proof.
  apply Permutation_length_1_inv, Permutation_sym, sort_values_perm.
Qed.

End AnySort_.

End PandasProofs.

(* ================================================================== *)
(** * The aggregation routines *)

Module AggregationProofs.

Import Pandas Dimensions PandasProofs Sample.
#[local] Open Scope list_scope.


Lemma flatten_app_some (c1 c2 : list (option (list author))) (l : list author) :
  flatten (c1 ++ Some l :: c2)
  = (x1 <- flatten c1 ;; x2 <- flatten c2 ;; Ok (x1 ++ l ++ x2)%list).
Proof.
  induction c1 as [|[l0|] c1 IH]; simpl.
  - reflexivity.
  - rewrite IH. destruct (flatten c1) as [x1|e]; simpl; [|reflexivity].
    destruct (flatten c2) as [x2|e]; simpl; [|reflexivity].
    now rewrite app_assoc.
  - reflexivity.
Qed.

Lemma mapM_app {A B : Type} (f : A -> result B) (l1 l2 : list A) :
  mapM f (l1 ++ l2)
  = (y1 <- mapM f l1 ;; y2 <- mapM f l2 ;; Ok (y1 ++ y2)%list).
Proof.
  induction l1 as [|x l1 IH]; simpl.
  - destruct (mapM f l2); reflexivity.
  - destruct (f x) as [y|e]; simpl; [|reflexivity].
    rewrite IH. destruct (mapM f l1) as [y1|e]; simpl; [|reflexivity].
    destruct (mapM f l2) as [y2|e]; reflexivity.
Qed.

(** The author tables of two result tables that differ by one author [a]
    of one record. *)
Lemma authors_df_insert (cols : list string) (before after : list publication)
      (title : option string) (l1 l2 : list author) (a : author)
      (L : list author) :
  authors_df
    {| columns := cols;
       rows := before ++ {| journal_title := title;
                            authors := Some (l1 ++ l2) |} :: after |}
  = Ok L ->
  exists L1 L2 : list author,
    L = (L1 ++ L2)%list
    /\ authors_df
         {| columns := cols;
            rows := before ++ {| journal_title := title;
                                 authors := Some (l1 ++ a :: l2) |} :: after |}
       = Ok (L1 ++ a :: L2)%list.
Proof.
  unfold authors_df, column. cbn [columns rows].
  destruct (existsb (String.eqb "authors") cols); cbn [Py.bind]; [|easy].
  rewrite !map_app. cbn [map authors]. rewrite !flatten_app_some.
  destruct (flatten (map authors before)) as [x1|e]; cbn [Py.bind]; [|easy].
  destruct (flatten (map authors after)) as [x2|e]; cbn [Py.bind]; [|easy].
  intros H. injection H as <-.
  exists (x1 ++ l1)%list, (l2 ++ x2)%list. split.
  - now rewrite <- !app_assoc.
  - now rewrite <- !app_assoc.
Qed.

Section AnySort_.

Context {sorter : Sorter}.

Lemma top_table_Ok (s : Series) (t : counts) :
  top_table s = Ok t <-> t = head 10 (value_counts true s) /\ t <> [].
Proof.
  unfold top_table. destruct (head 10 (value_counts true s)) as [|r u];
    cbn [plot_bar Py.bind]; split.
  - discriminate.
  - intros [-> H]. now elim H.
  - intros H. injection H as <-. split; [reflexivity | discriminate].
  - intros [-> _]. reflexivity.
Qed.

Lemma top_table_skips_missing (s1 s2 : Series) :
  top_table (s1 ++ None :: s2) = top_table (s1 ++ s2).
Proof.
  unfold top_table. now rewrite value_counts_skips_missing.
Qed.

(** Counting a field over a list of authors: an author whose value is
    missing can be added to a list that gives a table. *)
Lemma counts_with_missing_author {A : Type} (name : string)
      (cell : author -> A) (f : A -> result value) (a : author)
      (L1 L2 : list author) (t : counts) :
  f (cell a) = Ok None ->
  (col <- authors_column name cell (L1 ++ L2) ;;
   vs <- mapM f col ;; top_table vs) = Ok t ->
  (col <- authors_column name cell (L1 ++ a :: L2) ;;
   vs <- mapM f col ;; top_table vs) = Ok t.
Proof.
  intros Ha.
  assert (E1 : authors_column name cell (L1 ++ a :: L2)
               = Ok (map cell L1 ++ cell a :: map cell L2)).
  { unfold authors_column. rewrite map_app. destruct L1; reflexivity. }
  rewrite E1. cbn [Py.bind]. rewrite mapM_app. cbn [mapM]. rewrite Ha.
  destruct (L1 ++ L2) as [|b L] eqn:EL; cbn [authors_column Py.bind]; [easy|].
  rewrite <- EL, map_app, mapM_app.
  destruct (mapM f (map cell L1)) as [y1|e]; cbn [Py.bind]; [|easy].
  destruct (mapM f (map cell L2)) as [y2|e]; cbn [Py.bind]; [|easy].
  now rewrite top_table_skips_missing.
Qed.

Lemma no_missing_row (s : Series) (n : nat) :
  ~ In (None, n) (head 10 (value_counts true s)).
Proof.
  intros H. unfold head in H.
  assert (Hin : In (None, n) (value_counts true s)).
  { rewrite <- (firstn_skipn 10 (value_counts true s)).
    apply in_or_app. now left. }
  apply In_value_counts in Hin. destruct Hin as (_ & Hna & _). now apply Hna.
Qed.

Lemma first_affiliation_counts_no_missing (field : string)
      (df : DataFrame) (t : counts) (n : nat) :
  (l <- authors_df df ;;
   col <- authors_column "affiliations" affiliations l ;;
   vs <- mapM (first_affiliation field) col ;;
   top_table vs) = Ok t ->
  ~ In (None, n) t.
Proof.
  destruct (authors_df df) as [l|e]; cbn [Py.bind]; [|easy].
  destruct (authors_column "affiliations" affiliations l) as [col|e];
    cbn [Py.bind]; [|easy].
  destruct (mapM (first_affiliation field) col) as [vs|e];
    cbn [Py.bind]; [|easy].
  intros H. apply top_table_Ok in H. destruct H as [-> _].
  apply no_missing_row.
Qed.

Lemma first_affiliation_counts_unchanged (field : string)
      (cols : list string) (before after : list publication)
      (title : option string) (l1 l2 : list author) (a : author) :
  affiliations a = [] ->
  let count_over (df : DataFrame) : result counts :=
    l <- authors_df df ;;
    col <- authors_column "affiliations" affiliations l ;;
    vs <- mapM (first_affiliation field) col ;;
    top_table vs in
  let with_a :=
    {| columns := cols;
       rows := before ++ {| journal_title := title;
                            authors := Some (l1 ++ a :: l2) |} :: after |} in
  let without_a :=
    {| columns := cols;
       rows := before ++ {| journal_title := title;
                            authors := Some (l1 ++ l2) |} :: after |} in
  forall t, count_over without_a = Ok t -> count_over with_a = Ok t.
Proof.
  intros Ha count_over with_a without_a.
  subst count_over with_a without_a. cbv beta. intros t.
  destruct (authors_df _) as [L|e] eqn:EL at 1; cbn [Py.bind]; [|easy].
  destruct (authors_df_insert _ _ _ _ _ _ a _ EL) as (L1 & L2 & -> & ->).
  cbn [Py.bind]. apply counts_with_missing_author. now rewrite Ha.
Qed.

(** A column with one value apart from the missing ones gives a table of
    one row, for every sort. *)
Lemma top_table_one_value (s : Series) (v : string) (n : nat) :
  unique (dropna s) = [Some v] ->
  occurrences (Some v) (dropna s) = n ->
  top_table s = Ok [(Some v, n)].
Proof.
  intros Hu Hn. unfold top_table, value_counts. cbv zeta. rewrite Hu.
  cbn [map]. rewrite Hn, sort_values_one_row. reflexivity.
Qed.

Lemma country_column (df : DataFrame) (vs : Series) :
  (l <- authors_df df ;;
   col <- authors_column "affiliations" affiliations l ;;
   mapM (first_affiliation "country") col) = Ok vs ->
  plot_most_common_country df = top_table vs.
Proof.
  unfold plot_most_common_country.
  destruct (authors_df df) as [l|e]; cbn [Py.bind]; [|easy].
  destruct (authors_column "affiliations" affiliations l) as [col|e];
    cbn [Py.bind]; [|easy].
  destruct (mapM (first_affiliation "country") col) as [vs'|e];
    cbn [Py.bind]; [|easy].
  intros H. now injection H as ->.
Qed.

(** C1, as amended.  An author object whose affiliations list is empty is
    mapped to the missing value by the country and by the institution
    aggregation, without error, and the counts leave missing values out:
    when the routine returns a table for the result table without that
    author, it returns the same table with the author added, and no table
    has a row for the missing value. *)
Theorem unaffiliated_author_adds_no_entry
        (cols : list string) (before after : list publication)
        (title : option string) (l1 l2 : list author) (a : author) :
  affiliations a = [] ->
  let with_a :=
    {| columns := cols;
       rows := before ++ {| journal_title := title;
                            authors := Some (l1 ++ a :: l2) |} :: after |} in
  let without_a :=
    {| columns := cols;
       rows := before ++ {| journal_title := title;
                            authors := Some (l1 ++ l2) |} :: after |} in
  first_affiliation "country" (affiliations a) = Ok None
  /\ first_affiliation "name" (affiliations a) = Ok None
  /\ (forall t, plot_most_common_country without_a = Ok t ->
                plot_most_common_country with_a = Ok t)
  /\ (forall t, plot_most_common_institutions without_a = Ok t ->
                plot_most_common_institutions with_a = Ok t)
  /\ (forall t n, plot_most_common_country with_a = Ok t -> ~ In (None, n) t)
  /\ (forall t n, plot_most_common_institutions with_a = Ok t ->
                  ~ In (None, n) t).
Proof.
  intros Ha with_a without_a.
  pose proof (first_affiliation_counts_unchanged
                "country" cols before after title l1 l2 a Ha) as Hc.
  pose proof (first_affiliation_counts_unchanged
                "name" cols before after title l1 l2 a Ha) as Hi.
  rewrite Ha. repeat split.
  - exact Hc.
  - exact Hi.
  - intros t n H. exact (first_affiliation_counts_no_missing _ _ _ n H).
  - intros t n H. exact (first_affiliation_counts_no_missing _ _ _ n H).
Qed.

(** C2, as amended.  On the three records, the country frequency table has
    the single row US with count 3: the author without affiliation is left
    out of the count. *)
Theorem three_records_country_counts :
  plot_most_common_country three_records = Ok [(Some "US", 3)].
Proof.
  rewrite (country_column three_records
             [Some "US"; None; Some "US"; Some "US"] eq_refl).
  apply top_table_one_value; reflexivity.
Qed.


End AnySort_.

Lemma unaffiliated_author_adds_no_entry_witness :
  affiliations (unaffiliated_author "ur.2") = []
  /\ plot_most_common_country (sorter := first_seen_sorter) one_record
     = Ok [(Some "US", 1)].
Proof.
  split; [reflexivity|].
  apply (unaffiliated_author_adds_no_entry (sorter := first_seen_sorter)
           ["id"; "authors"] [] [] None [us_author "ur.1"] []
           (unaffiliated_author "ur.2")); reflexivity.
Defined.

(** C1, the claim as it stands, fails: the record has an author whose
    affiliations list is empty, and, whatever the sort, neither table has
    an entry for the missing value. *)
Lemma unaffiliated_author_has_no_sentinel_entry :
  In (unaffiliated_author "ur.2") [us_author "ur.1"; unaffiliated_author "ur.2"]
  /\ affiliations (unaffiliated_author "ur.2") = []
  /\ (forall sorter : Sorter,
         plot_most_common_country (sorter := sorter) one_record
         = Ok [(Some "US", 1)])
  /\ ~ (exists (sorter : Sorter) (t : counts),
           plot_most_common_country (sorter := sorter) one_record = Ok t
           /\ In (None, 1) t)
  /\ ~ (exists (sorter : Sorter) (t : counts),
           plot_most_common_institutions (sorter := sorter) one_record = Ok t
           /\ In (None, 1) t).
Proof.
  split; [simpl; auto|]. split; [reflexivity|]. split; [|split].
  - intros sorter.
    rewrite (country_column one_record [Some "US"; None] eq_refl).
    apply top_table_one_value; reflexivity.
  - intros (sorter & t & H & Hin).
    exact (first_affiliation_counts_no_missing _ _ _ 1 H Hin).
  - intros (sorter & t & H & Hin).
    exact (first_affiliation_counts_no_missing _ _ _ 1 H Hin).
Qed.

(** C2, the claim as it stands, fails: whatever the sort, the table has no
    row for the missing value. *)
Lemma three_records_no_sentinel_row :
  ~ (exists (sorter : Sorter) (t : counts),
        plot_most_common_country (sorter := sorter) three_records = Ok t
        /\ In (Some "US", 3) t /\ In (None, 1) t).
Proof.
  intros (sorter & t & H & _ & Hin).
  exact (first_affiliation_counts_no_missing _ _ _ 1 H Hin).
Qed.



End AggregationProofs.

(* ================================================================== *)
(** * Submission, analysis and the life of an instance *)

Module SubmissionProofs.

Import Query Pandas Dimensions.

Lemma append_assoc (a b c : string) : (a ++ b) ++ c = a ++ b ++ c.
Proof.
  induction a as [|x a IH]; simpl; [reflexivity | now rewrite IH].
Qed.

Section Instance_.

Context {client : Dimcli} {sorter : Sorter}.
Variable getenv : string -> option string.

Lemma exec_keeps_parameters (c : call) (self : DimensionsQuery) :
  endpoint (exec c self) = endpoint self
  /\ api_key (exec c self) = api_key self
  /\ dsl (exec c self) = dsl self
  /\ return_cols (exec c self) = return_cols self.
Proof.
  destruct c as [[t|w|s]| |df|]; simpl; auto.
  unfold run_query.
  destruct (getattr (query self) "query") as [[text|]|e]; simpl; auto.
  match goal with |- context [match ?m with Ok _ => _ | Raise _ => _ end] =>
    destruct m as [response|e] end; simpl; auto.
Qed.

(** No method changes what construction fixed: after any sequence of calls
    the endpoint, the credential, the session and the projection are those
    the instance had before. *)
Theorem calls_keep_construction_parameters
        (cs : list call) (self : DimensionsQuery) :
  endpoint (run cs self) = endpoint self
  /\ api_key (run cs self) = api_key self
  /\ dsl (run cs self) = dsl self
  /\ return_cols (run cs self) = return_cols self.
Proof.
  revert self. induction cs as [|c cs IH]; intros self; simpl; [auto|].
  destruct (IH (exec c self)) as (He & Hk & Hd & Hr).
  destruct (exec_keeps_parameters c self) as (He' & Hk' & Hd' & Hr').
  unfold run in *. rewrite He, Hk, Hd, Hr. auto.
Qed.

Lemma update_query_fixpoint (self : DimensionsQuery) :
  up_to_date self -> update_query self = self.
Proof.
  unfold up_to_date, update_query, set_query. destruct self; simpl.
  intros ->. reflexivity.
Qed.

Lemma exec_query_up_to_date (c : call) (self : DimensionsQuery) :
  up_to_date self -> up_to_date (exec c self).
Proof.
  intros H. destruct c as [[t|w|s]| |df|]; simpl; try reflexivity; [|exact H].
  unfold up_to_date, run_query in *.
  destruct (getattr (query self) "query") as [[text|]|e]; simpl; auto.
  match goal with |- context [match ?m with Ok _ => _ | Raise _ => _ end] =>
    destruct m as [response|e] end; simpl; auto.
Qed.

Lemma run_query_up_to_date (cs : list call) (self : DimensionsQuery) :
  up_to_date self -> up_to_date (run cs self).
Proof.
  revert self. induction cs as [|c cs IH]; intros self H; simpl; [exact H|].
  apply IH, exec_query_up_to_date, H.
Qed.

Lemma init_query_up_to_date (topic : string) (where_ : option string)
      (search : string) (return_cols : option string) (endpoint : string)
      (self : DimensionsQuery) :
  __init__ getenv topic where_ search return_cols endpoint = Ok self ->
  up_to_date self.
Proof.
  unfold __init__, validate_key.
  destruct (getenv "DIMENSIONS_API_KEY") as [key|]; cbn [Py.bind]; [|easy].
  destruct (login key endpoint) as [session|msg]; cbn [extern Py.bind]; [|easy].
  intros H. injection H as <-. reflexivity.
Qed.

(** On an instance that was constructed and then only used through its
    methods, calling [update_query] changes nothing: the stored text is
    already the one it would compute. *)
Theorem update_query_changes_nothing
        (topic : string) (where_ : option string) (search : string)
        (return_cols : option string) (endpoint : string)
        (self : DimensionsQuery) (cs : list call) :
  __init__ getenv topic where_ search return_cols endpoint = Ok self ->
  update_query (run cs self) = run cs self.
Proof.
  intros H. apply update_query_fixpoint, run_query_up_to_date.
  exact (init_query_up_to_date _ _ _ _ _ _ H).
Qed.

Lemma apply_setters_fields (cs : list setter) (self : DimensionsQuery) :
  topic (apply_setters cs self) = last_topic cs (topic self)
  /\ where_ (apply_setters cs self) = last_where cs (where_ self)
  /\ search (apply_setters cs self) = last_search cs (search self)
  /\ return_cols (apply_setters cs self) = return_cols self.
Proof.
  revert self. induction cs as [|c cs IH]; intros self; [simpl; auto|].
  destruct (IH (apply_setter c self)) as (Ht & Hw & Hs & Hr).
  change (apply_setters (c :: cs) self)
    with (apply_setters cs (apply_setter c self)).
  rewrite Ht, Hw, Hs, Hr. destruct c; simpl; auto.
Qed.

Lemma apply_setters_query_up_to_date (cs : list setter) (self : DimensionsQuery) :
  up_to_date self -> up_to_date (apply_setters cs self).
Proof.
  revert self. induction cs as [|c cs IH]; intros self H; [exact H|].
  change (apply_setters (c :: cs) self)
    with (apply_setters cs (apply_setter c self)).
  apply IH. destruct c; reflexivity.
Qed.

(** After a sequence of setter calls the query text is rendered from, for
    each field, the argument of the last call of its setter (the value the
    field had before when its setter was not called) and from the projection
    given at construction: earlier calls leave no trace. *)
Theorem query_after_setters_is_last_values
        (cs : list setter) (self : DimensionsQuery) :
  up_to_date self ->
  query (apply_setters cs self)
  = Attr (Some (render (last_topic cs (topic self))
                       (last_where cs (where_ self))
                       (last_search cs (search self))
                       (return_cols self))).
Proof.
  intros H. pose proof (apply_setters_query_up_to_date cs self H) as Hq.
  destruct (apply_setters_fields cs self) as (Ht & Hw & Hs & Hr).
  unfold up_to_date in Hq. now rewrite Ht, Hw, Hs, Hr in Hq.
Qed.

(** Construction succeeds exactly when the credential is in the environment
    and the client's login returns; when the login raises, construction
    raises that same exception, unchanged. *)
Theorem construction_outcome
        (topic : string) (where_ : option string) (search : string)
        (return_cols : option string) (endpoint : string) :
  ((exists self : DimensionsQuery,
       __init__ getenv topic where_ search return_cols endpoint = Ok self)
   <-> exists (key : string) (session : Dsl),
         getenv "DIMENSIONS_API_KEY" = Some key
         /\ login key endpoint = Returns session)
  /\ (forall key msg : string,
        getenv "DIMENSIONS_API_KEY" = Some key ->
        login key endpoint = Fails msg ->
        __init__ getenv topic where_ search return_cols endpoint
        = Raise (ClientError msg)).
Proof.
  unfold __init__, validate_key. split; [split|].
  - intros (self & H).
    destruct (getenv "DIMENSIONS_API_KEY") as [key|]; cbn [Py.bind] in H;
      [|discriminate].
    destruct (login key endpoint) as [session|msg] eqn:E;
      cbn [extern Py.bind] in H; [|discriminate].
    exists key, session. auto.
  - intros (key & session & -> & ->). cbn [extern Py.bind]. eauto.
  - intros key msg -> ->. reflexivity.
Qed.

(** A submission that raises with [df=True] leaves the instance as it was:
    [self.results] is assigned only once the query, the count and the
    conversion to a table have all returned.  In either mode, an exception
    of the client's query call comes out unchanged and nothing is stored. *)
Theorem failed_submission_stores_nothing (self : DimensionsQuery) :
  (forall e : exn,
      snd (run_query true self) = Raise e -> fst (run_query true self) = self)
  /\ (forall (df : bool) (text msg : string),
        query self = Attr (Some text) ->
        dsl_query (dsl self) text = Fails msg ->
        run_query df self = (self, Raise (ClientError msg))).
Proof.
  split.
  - intros e. unfold run_query.
    destruct (getattr (query self) "query") as [[text|]|e0];
      cbn [fst snd]; auto.
    destruct (dsl_query (dsl self) text) as [response|msg];
      cbn [extern Py.bind fst snd]; auto.
    destruct (total_count response) as [n|msg];
      cbn [extern Py.bind fst snd]; auto.
    destruct (as_dataframe response) as [frame|msg];
      cbn [extern Py.bind fst snd]; auto.
    discriminate.
  - intros df text msg Hq Hf. unfold run_query. rewrite Hq.
    cbn [getattr]. rewrite Hf. reflexivity.
Qed.

(** Analysis after a submission that returned: in either mode of
    [run_query], [analyze_results] passes its guard and computes the four
    tables of the table form of the response. *)
Theorem analysis_after_submission
        (self : DimensionsQuery) (df : bool) (text : string)
        (response : DslDataset) (n : nat) (frame : DataFrame) :
  query self = Attr (Some text) ->
  dsl_query (dsl self) text = Returns response ->
  total_count response = Returns n ->
  as_dataframe response = Returns frame ->
  analyze_results (fst (run_query df self)) = analysis_of frame.
Proof.
  intros Hq Hr Hn Hf. unfold run_query. rewrite Hq. cbn [getattr].
  rewrite Hr. cbn [extern Py.bind]. rewrite Hn. cbn [extern Py.bind].
  destruct df.
  - rewrite Hf. cbn [extern Py.bind fst]. unfold analyze_results.
    reflexivity.
  - cbn [fst]. unfold analyze_results. cbn [results set_results getattr Py.bind].
    rewrite Hf. reflexivity.
Qed.

(** The routines run in the order journal, author, country, institution and
    the first exception ends the analysis: on a stored table without the
    journal column, [analyze_results] raises the [KeyError] of that column,
    whatever the authors are. *)
Theorem analysis_needs_journal_column
        (self : DimensionsQuery) (frame : DataFrame) :
  results self = Attr (Some (ResFrame frame)) ->
  ~ In "journal.title" (columns frame) ->
  analyze_results self = Raise (KeyError "journal.title").
Proof.
  intros Hres Hcol. unfold analyze_results. rewrite Hres.
  cbn [getattr Py.bind]. unfold plot_most_common_journal, column.
  destruct (existsb (String.eqb "journal.title") (columns frame)) eqn:E.
  - apply existsb_exists in E. destruct E as (c & Hin & Hc).
    apply String.eqb_eq in Hc. subst c. contradiction.
  - reflexivity.
Qed.

End Instance_.

Lemma nonempty_truthy (y : string) : truthy (Some (y ++ dquote)) = true.
Proof. destruct y; reflexivity. Qed.

(** The topic and the filter go into the query text as they are, without
    escaping: a topic that carries a closing quote and a where clause
    renders the very text of the plain topic with that clause as filter. *)
Theorem topic_is_not_escaped
        (x y search : string) (return_cols : option string) :
  render (x ++ dquote ++ " where " ++ y) None search return_cols
  = render x (Some (y ++ dquote)) search return_cols.
Proof.
  unfold render. rewrite nonempty_truthy. cbn [truthy format].
  rewrite !append_assoc. reflexivity.
Qed.

Import Sample.

Lemma update_query_changes_nothing_witness :
  exists self : DimensionsQuery,
    __init__ (client := fixed_client three_records) env_with_key
             "deep learning" (Some "year=2020") "publications" None
             default_endpoint = Ok self
    /\ update_query (run [Setter (UpdateTopic "malaria"); RunQuery true] self)
       = run [Setter (UpdateTopic "malaria"); RunQuery true] self.
Proof.
  eexists. split; [reflexivity|].
  apply (update_query_changes_nothing
           (client := fixed_client three_records) env_with_key
           "deep learning" (Some "year=2020") "publications" None
           default_endpoint).
  reflexivity.
Defined.

Lemma query_after_setters_is_last_values_witness :
  exists self : DimensionsQuery,
    __init__ (client := fixed_client three_records) env_with_key
             "deep learning" None "publications" (Some "id+title")
             default_endpoint = Ok self
    /\ query (apply_setters
                [UpdateTopic "malaria"; UpdateWhere (Some "year=2021");
                 UpdateTopic "dengue"] self)
       = Attr (Some (render "dengue" (Some "year=2021") "publications"
                            (Some "id+title"))).
Proof.
  eexists. split; [reflexivity|].
  apply (query_after_setters_is_last_values
           (client := fixed_client three_records)
           [UpdateTopic "malaria"; UpdateWhere (Some "year=2021");
            UpdateTopic "dengue"]).
  reflexivity.
Defined.

Lemma construction_outcome_witness :
  (exists self : DimensionsQuery,
      __init__ (client := fixed_client three_records) env_with_key
               "deep learning" None "publications" None default_endpoint
      = Ok self)
  /\ __init__ (client := rejecting_client) env_with_key
              "deep learning" None "publications" None default_endpoint
     = Raise (ClientError "401 Unauthorized").
Proof.
  split.
  - apply (proj1 (construction_outcome
                    (client := fixed_client three_records) env_with_key
                    "deep learning" None "publications" None default_endpoint)).
    exists "secret", "secret". split; reflexivity.
  - apply (proj2 (construction_outcome
                    (client := rejecting_client) env_with_key
                    "deep learning" None "publications" None default_endpoint)
                 "secret" "401 Unauthorized"); reflexivity.
Defined.

Lemma failed_submission_stores_nothing_witness :
  exists self : DimensionsQuery,
    __init__ (client := offline_client) env_with_key
             "deep learning" None "publications" None default_endpoint
    = Ok self
    /\ fst (run_query true self) = self
    /\ run_query false self = (self, Raise (ClientError "connection refused")).
Proof.
  eexists. split; [reflexivity|]. split.
  - apply (proj1 (failed_submission_stores_nothing (client := offline_client) _)
                 (ClientError "connection refused")).
    reflexivity.
  - apply (proj2 (failed_submission_stores_nothing (client := offline_client) _)
                 false
                 (render "deep learning" None "publications" None)
                 "connection refused"); reflexivity.
Defined.

Lemma analysis_after_submission_witness :
  exists self : DimensionsQuery,
    __init__ (client := fixed_client three_records) env_with_key
             "deep learning" None "publications" None default_endpoint
    = Ok self
    /\ analyze_results (sorter := first_seen_sorter)
                       (fst (run_query false self))
       = analysis_of (sorter := first_seen_sorter) three_records.
Proof.
  eexists. split; [reflexivity|].
  apply (analysis_after_submission
           (client := fixed_client three_records)
           (sorter := first_seen_sorter) _ false
           (render "deep learning" None "publications" None)
           three_records 3 three_records); reflexivity.
Defined.

Lemma analysis_needs_journal_column_witness :
  exists self : DimensionsQuery,
    __init__ (client := fixed_client one_record) env_with_key
             "deep learning" None "publications" None default_endpoint
    = Ok self
    /\ analyze_results (sorter := first_seen_sorter)
                       (fst (run_query true self))
       = Raise (KeyError "journal.title").
Proof.
  eexists. split; [reflexivity|].
  apply (analysis_needs_journal_column
           (client := fixed_client one_record)
           (sorter := first_seen_sorter) _ one_record).
  - reflexivity.
  - simpl. intros [H|[H|[]]]; discriminate H.
Defined.

End SubmissionProofs.

(* ================================================================== *)
(** * What the frequency tables hold *)

Module TableProofs.

Import Pandas Dimensions PandasProofs Sample.
#[local] Open Scope list_scope.

(** ** Keys and totals of [value_counts] *)

Lemma NoDup_unique (s : Series) : NoDup (unique s).
Proof.
  induction s as [|v s IH]; simpl; constructor.
  - intros H. apply filter_In in H. destruct H as [_ H].
    now rewrite value_eqb_refl in H.
  - now apply NoDup_filter.
Qed.

Lemma NoDup_firstn_keys (n : nat) (t : counts) :
  NoDup (map fst t) -> NoDup (map fst (firstn n t)).
Proof.
  intros H. rewrite <- (firstn_skipn n t), map_app in H.
  now apply NoDup_app_remove_r in H.
Qed.

Lemma list_sum_perm (l l' : list nat) :
  Permutation l l' -> list_sum l = list_sum l'.
Proof.
  induction 1; simpl; lia.
Qed.

Lemma occurrences_absent (v : value) (s : Series) :
  ~ In v s -> occurrences v s = 0.
Proof.
  unfold occurrences. induction s as [|u s IH]; simpl; [reflexivity|].
  intros H. destruct (value_eqb v u) eqn:E.
  - apply value_eqb_eq in E. subst. exfalso. apply H. now left.
  - apply IH. intros Hin. apply H. now right.
Qed.

Lemma occurrences_cons (v u : value) (s : Series) :
  occurrences v (u :: s)
  = (if value_eqb v u then 1 else 0) + occurrences v s.
Proof.
  unfold occurrences. simpl. destruct (value_eqb v u); reflexivity.
Qed.

(** Taking one value out of a duplicate-free list of keys takes its share
    out of the total. *)
Lemma list_sum_without (f : value -> nat) (v : value) (l : Series) :
  NoDup l ->
  (~ In v l -> f v = 0) ->
  f v + list_sum (map f (filter (fun u => negb (value_eqb v u)) l))
  = list_sum (map f l).
Proof.
  intros Hnd. induction Hnd as [|u l Hu Hnd IH]; intros H0; simpl.
  - rewrite H0; auto.
  - destruct (value_eqb v u) eqn:E; simpl.
    + apply value_eqb_eq in E. subst u.
      assert (Hid : filter (fun u => negb (value_eqb v u)) l = l).
      { clear IH H0 Hnd. induction l as [|w l IHl]; simpl; [reflexivity|].
        destruct (value_eqb v w) eqn:Ew.
        - apply value_eqb_eq in Ew. subst w. exfalso. apply Hu. now left.
        - simpl. rewrite IHl; [reflexivity|]. intros Hin. apply Hu. now right. }
      now rewrite Hid.
    + rewrite <- IH; [lia|].
      intros Hin. apply H0. intros [->|Hin']; [|contradiction].
      now rewrite value_eqb_refl in E.
Qed.

Lemma total_of_unique (s : Series) :
  list_sum (map (fun v => occurrences v s) (unique s)) = List.length s.
Proof.
  induction s as [|u s IH]; [reflexivity|].
  change (unique (u :: s))
    with (u :: filter (fun w => negb (value_eqb u w)) (unique s)).
  cbn [map list_sum List.length].
  rewrite occurrences_cons, value_eqb_refl.
  assert (E : map (fun v => occurrences v (u :: s))
                  (filter (fun w => negb (value_eqb u w)) (unique s))
              = map (fun v => occurrences v s)
                    (filter (fun w => negb (value_eqb u w)) (unique s))).
  { apply map_ext_in. intros w Hw. apply filter_In in Hw.
    destruct Hw as [_ Hw]. apply negb_true_iff in Hw.
    rewrite occurrences_cons.
    assert (Hwu : value_eqb w u = false).
    { apply value_eqb_neq. apply value_eqb_neq in Hw. congruence. }
    now rewrite Hwu. }
  rewrite E.
  pose proof (list_sum_without (fun v => occurrences v s) u (unique s)
                (NoDup_unique s)) as H.
  cbv beta in H. rewrite <- IH. simpl. f_equal. apply H.
  intros Hu. apply occurrences_absent. now rewrite <- In_unique.
Qed.

(** ** The first rows of a frequency table *)

Section AnySort_.

Context {sorter : Sorter}.

Lemma value_counts_keys (s : Series) :
  Permutation (map fst (value_counts true s)) (unique (dropna s)).
Proof.
  unfold value_counts.
  eapply Permutation_trans; [apply Permutation_map, sort_values_perm|].
  rewrite map_map. simpl. rewrite map_id. apply Permutation_refl.
Qed.

(** The counts of a frequency table add up to the number of cells that are
    not missing. *)
Lemma total_of_value_counts (s : Series) :
  list_sum (map snd (value_counts true s)) = List.length (dropna s).
Proof.
  unfold value_counts.
  rewrite (list_sum_perm _ _ (Permutation_map snd (sort_values_perm _))).
  rewrite map_map. simpl. apply total_of_unique.
Qed.


Lemma In_head (r : value * nat) (n : nat) (t : counts) :
  In r (head n t) -> In r t.
Proof.
  unfold head. intros H. rewrite <- (firstn_skipn n t).
  apply in_or_app. now left.
Qed.

(** What any table [head 10 (value_counts true s)] holds. *)
Lemma top_table_rows (s : Series) :
  let t := head 10 (value_counts true s) in
  List.length t <= 10
  /\ NoDup (map fst t)
  /\ (forall k n, In (k, n) t ->
                  In k s /\ k <> None /\ 0 < n /\ n = occurrences k s).
Proof.
  intros t. unfold t, head. repeat split.
  - apply firstn_le_length.
  - apply NoDup_firstn_keys.
    apply (Permutation_NoDup (Permutation_sym (value_counts_keys s))).
    apply NoDup_unique.
  - apply In_head in H. now apply In_value_counts in H.
  - apply In_head in H. now apply In_value_counts in H.
  - apply In_head, In_value_counts in H. destruct H as (Hin & _ & ->).
    now apply occurrences_pos.
  - apply In_head in H. now apply In_value_counts in H.
Qed.


(** With at most ten distinct values nothing is cut off. *)
Lemma small_table_complete (s : Series) :
  nunique s <= 10 ->
  let t := head 10 (value_counts true s) in
  (forall k, In k s -> k <> None -> In (k, occurrences k s) t)
  /\ list_sum (map snd t) = List.length (dropna s).
Proof.
  intros Hn t. unfold t, head.
  rewrite firstn_all2 by (rewrite length_value_counts; exact Hn).
  split.
  - intros k Hin Hna. apply In_value_counts. auto.
  - apply total_of_value_counts.
Qed.

(** ** The tables of the four routines *)

Lemma journal_table (df : DataFrame) (t : counts) :
  plot_most_common_journal df = Ok t ->
  t = head 10 (value_counts true (map journal_title (rows df))) /\ t <> [].
Proof.
  unfold plot_most_common_journal, column.
  destruct (existsb (String.eqb "journal.title") (columns df));
    cbn [Py.bind]; [|easy].
  intros H. now apply (AggregationProofs.top_table_Ok _ t) in H.
Qed.

Lemma author_table (df : DataFrame) (t : counts) :
  plot_publications_per_author df = Ok t ->
  exists l, authors_df df = Ok l
            /\ t = head 10 (value_counts true (map researcher_id l)).
Proof.
  unfold plot_publications_per_author.
  destruct (authors_df df) as [l|e]; cbn [Py.bind]; [|easy].
  destruct l as [|a l]; cbn [authors_column Py.bind]; [easy|].
  intros H. apply (AggregationProofs.top_table_Ok _ t) in H.
  destruct H as [-> _]. eauto.
Qed.

Lemma affiliation_table (field : string) (df : DataFrame) (t : counts) :
  (l <- authors_df df ;;
   col <- authors_column "affiliations" affiliations l ;;
   vs <- mapM (first_affiliation field) col ;;
   top_table vs) = Ok t ->
  exists l vs, authors_df df = Ok l
               /\ mapM (first_affiliation field) (map affiliations l) = Ok vs
               /\ t = head 10 (value_counts true vs).
Proof.
  destruct (authors_df df) as [l|e]; cbn [Py.bind]; [|easy].
  destruct l as [|a l]; cbn [authors_column Py.bind]; [easy|].
  destruct (mapM (first_affiliation field) (map affiliations (a :: l)))
    as [vs|e] eqn:E; cbn [Py.bind]; [|easy].
  intros H. apply AggregationProofs.top_table_Ok in H.
  destruct H as [-> _]. exists (a :: l), vs. auto.
Qed.

Lemma journal_routine_returns (df : DataFrame) :
  In "journal.title" (columns df) ->
  1 <= nunique (map journal_title (rows df)) ->
  plot_most_common_journal df
  = Ok (head 10 (value_counts true (map journal_title (rows df)))).
Proof.
  intros Hcol H1. unfold plot_most_common_journal, column.
  assert (E : existsb (String.eqb "journal.title") (columns df) = true).
  { apply existsb_exists. exists "journal.title". split; [exact Hcol|].
    apply String.eqb_refl. }
  rewrite E. cbn [Py.bind].
  pose proof (length_value_counts (map journal_title (rows df))) as Hlen.
  destruct (value_counts true (map journal_title (rows df))) as [|r t];
    [simpl in Hlen; lia | reflexivity].
Qed.

(** Every table a routine returns has at most ten rows, no value twice, no
    row for the missing value, and only positive counts. *)
Theorem tables_have_at_most_ten_distinct_rows (df : DataFrame) (t : counts) :
  plot_most_common_journal df = Ok t
  \/ plot_publications_per_author df = Ok t
  \/ plot_most_common_country df = Ok t
  \/ plot_most_common_institutions df = Ok t ->
  List.length t <= 10
  /\ NoDup (map fst t)
  /\ (forall k n, In (k, n) t -> k <> None /\ 0 < n).
Proof.
  intros H.
  assert (Hs : exists s, t = head 10 (value_counts true s)).
  { destruct H as [H|[H|[H|H]]].
    - apply journal_table in H. destruct H as [H _]. eauto.
    - apply author_table in H. destruct H as (l & _ & H). eauto.
    - apply (affiliation_table "country") in H.
      destruct H as (l & vs & _ & _ & H). eauto.
    - apply (affiliation_table "name") in H.
      destruct H as (l & vs & _ & _ & H). eauto. }
  destruct Hs as (s & ->).
  destruct (top_table_rows s) as (Hlen & Hnd & Hrows).
  repeat split; auto; apply Hrows in H0; tauto.
Qed.


(** With at least one and at most ten distinct journal titles the journal
    table is complete: every title of the column has its row, with the
    number of records that carry it, and the counts add up to the number of
    records that have a title. *)
Theorem small_journal_table_is_complete (df : DataFrame) :
  In "journal.title" (columns df) ->
  1 <= nunique (map journal_title (rows df)) ->
  nunique (map journal_title (rows df)) <= 10 ->
  let titles := map journal_title (rows df) in
  exists t : counts,
    plot_most_common_journal df = Ok t
    /\ (forall k, In k titles -> k <> None -> In (k, occurrences k titles) t)
    /\ list_sum (map snd t) = List.length (dropna titles).
Proof.
  intros Hcol H1 Hn titles.
  exists (head 10 (value_counts true titles)). split.
  - apply journal_routine_returns; [exact Hcol | exact H1].
  - now apply small_table_complete.
Qed.

(** Each row of the author table carries the number of author entries with
    that researcher id over all records: an author is counted once for each
    record that lists them. *)
Theorem author_count_is_number_of_entries
        (df : DataFrame) (t : counts) (l : list author) (k : value) (n : nat) :
  plot_publications_per_author df = Ok t ->
  authors_df df = Ok l ->
  In (k, n) t ->
  In k (map researcher_id l) /\ n = occurrences k (map researcher_id l).
Proof.
  intros H Hl Hin. apply author_table in H. destruct H as (l' & Hl' & ->).
  rewrite Hl in Hl'. injection Hl' as <-.
  apply (top_table_rows (map researcher_id l)) in Hin. tauto.
Qed.

(** When some record has a title, the journal table has as many rows as the
    column has distinct titles, and ten when there are more. *)
Theorem journal_table_length (df : DataFrame) :
  In "journal.title" (columns df) ->
  1 <= nunique (map journal_title (rows df)) ->
  exists t : counts,
    plot_most_common_journal df = Ok t
    /\ List.length t = Nat.min 10 (nunique (map journal_title (rows df))).
Proof.
  intros Hcol H1.
  exists (head 10 (value_counts true (map journal_title (rows df)))). split.
  - apply journal_routine_returns; [exact Hcol | exact H1].
  - unfold head. now rewrite length_firstn, length_value_counts.
Qed.

(** When the table has the journal column and no record has a title, the
    counts are empty and the journal routine fails at the bar plot: no table
    is printed. *)
Theorem journal_routine_fails_on_no_title (df : DataFrame) :
  In "journal.title" (columns df) ->
  nunique (map journal_title (rows df)) = 0 ->
  plot_most_common_journal df
  = Raise (IndexError "index 0 is out of bounds for axis 0 with size 0").
Proof.
  intros Hcol H0. unfold plot_most_common_journal, column.
  assert (E : existsb (String.eqb "journal.title") (columns df) = true).
  { apply existsb_exists. exists "journal.title". split; [exact Hcol|].
    apply String.eqb_refl. }
  rewrite E. cbn [Py.bind].
  pose proof (length_value_counts (map journal_title (rows df))) as Hlen.
  rewrite H0 in Hlen.
  destruct (value_counts true (map journal_title (rows df))); [|discriminate].
  reflexivity.
Qed.

End AnySort_.

Lemma tables_have_at_most_ten_distinct_rows_witness :
  plot_most_common_country (sorter := first_seen_sorter) three_records
  = Ok [(Some "US", 3)]
  /\ List.length [(Some "US", 3)] <= 10
  /\ NoDup (map fst [(Some "US", 3)]).
Proof.
  split; [reflexivity|].
  destruct (tables_have_at_most_ten_distinct_rows
              (sorter := first_seen_sorter) three_records
              [(Some "US", 3)]) as (H1 & H2 & _).
  - right. right. left. reflexivity.
  - split; assumption.
Defined.


Lemma small_journal_table_is_complete_witness :
  exists t : counts,
    plot_most_common_journal (sorter := first_seen_sorter) three_records = Ok t
    /\ list_sum (map snd t) = 3.
Proof.
  destruct (small_journal_table_is_complete (sorter := first_seen_sorter)
              three_records) as (t & H1 & _ & H2).
  - simpl. auto.
  - vm_compute. lia.
  - vm_compute. lia.
  - exists t. split; [exact H1 | exact H2].
Defined.

Lemma author_count_is_number_of_entries_witness :
  In (Some "ur.1")
     (map researcher_id
          [us_author "ur.1"; unaffiliated_author "ur.2"; us_author "ur.1"])
  /\ 2 = occurrences (Some "ur.1")
                     (map researcher_id
                          [us_author "ur.1"; unaffiliated_author "ur.2";
                           us_author "ur.1"]).
Proof.
  apply (author_count_is_number_of_entries (sorter := first_seen_sorter)
           {| columns := ["authors"];
              rows := [{| journal_title := None;
                          authors := Some [us_author "ur.1";
                                           unaffiliated_author "ur.2"] |};
                       {| journal_title := None;
                          authors := Some [us_author "ur.1"] |}] |}
           [(Some "ur.1", 2); (Some "ur.2", 1)]).
  - reflexivity.
  - reflexivity.
  - simpl. auto.
Defined.

Lemma journal_table_length_witness :
  exists t : counts,
    plot_most_common_journal (sorter := first_seen_sorter) three_records = Ok t
    /\ List.length t = 2.
Proof.
  destruct (journal_table_length (sorter := first_seen_sorter) three_records)
    as (t & H1 & H2).
  - simpl. auto.
  - vm_compute. lia.
  - exists t. split; [exact H1 | exact H2].
Defined.

Lemma journal_routine_fails_on_no_title_witness :
  plot_most_common_journal (sorter := first_seen_sorter)
    {| columns := ["id"; "journal.title"];
       rows := [{| journal_title := None; authors := None |}] |}
  = Raise (IndexError "index 0 is out of bounds for axis 0 with size 0").
Proof.
  apply (journal_routine_fails_on_no_title (sorter := first_seen_sorter)).
  - simpl. auto.
  - reflexivity.
Defined.

End TableProofs.

(* ================================================================== *)
(** * Edge cases of the aggregation routines *)

Module EdgeProofs.

Import Pandas Dimensions PandasProofs Sample.
#[local] Open Scope list_scope.

Section AnySort_.

Context {sorter : Sorter}.

Lemma column_of_present {A : Type} (name : string) (cell : publication -> A)
      (df : DataFrame) :
  In name (columns df) -> column name cell df = Ok (map cell (rows df)).
Proof.
  intros Hin. unfold column.
  assert (E : existsb (String.eqb name) (columns df) = true).
  { apply existsb_exists. exists name. split; [exact Hin|].
    apply String.eqb_refl. }
  now rewrite E.
Qed.

Lemma flatten_empty_lists (cells : list (option (list author))) :
  Forall (fun c => c = Some []) cells -> flatten cells = Ok [].
Proof.
  induction 1 as [|c cells Hc _ IH]; [reflexivity|].
  subst c. simpl. now rewrite IH.
Qed.

Lemma flatten_missing_cell (cells : list (option (list author))) :
  In None cells ->
  flatten cells = Raise (TypeError "'float' object is not iterable").
Proof.
  induction cells as [|[l|] cells IH]; simpl; intros H.
  - contradiction.
  - destruct H as [H|H]; [discriminate|]. now rewrite IH.
  - reflexivity.
Qed.

(** When the table has its authors column and no record has any author
    (an empty result table in particular), the three author routines raise
    [KeyError]: the author table built from the empty list has no column to
    read. *)
Theorem no_author_raises_KeyError (df : DataFrame) :
  In "authors" (columns df) ->
  Forall (fun p => authors p = Some []) (rows df) ->
  plot_publications_per_author df = Raise (KeyError "researcher_id")
  /\ plot_most_common_country df = Raise (KeyError "affiliations")
  /\ plot_most_common_institutions df = Raise (KeyError "affiliations").
Proof.
  intros Hcol Hrows.
  assert (E : authors_df df = Ok []).
  { unfold authors_df. rewrite (column_of_present _ _ _ Hcol).
    cbn [Py.bind]. apply flatten_empty_lists.
    rewrite Forall_forall in *. intros c Hc. apply in_map_iff in Hc.
    destruct Hc as (p & <- & Hp). now apply Hrows. }
  unfold plot_publications_per_author, plot_most_common_country,
    plot_most_common_institutions.
  rewrite E. repeat split.
Qed.

(** A record whose authors cell is missing makes the three author routines
    raise [TypeError], whatever the other records hold: the missing cell
    cannot be iterated. *)
Theorem missing_authors_cell_raises_TypeError (df : DataFrame)
        (p : publication) :
  In "authors" (columns df) ->
  In p (rows df) ->
  authors p = None ->
  let e := TypeError "'float' object is not iterable" in
  plot_publications_per_author df = Raise e
  /\ plot_most_common_country df = Raise e
  /\ plot_most_common_institutions df = Raise e.
Proof.
  intros Hcol Hp Hnone e.
  assert (E : authors_df df = Raise e).
  { unfold authors_df. rewrite (column_of_present _ _ _ Hcol).
    cbn [Py.bind]. apply flatten_missing_cell.
    rewrite <- Hnone. now apply in_map. }
  unfold plot_publications_per_author, plot_most_common_country,
    plot_most_common_institutions.
  rewrite E. repeat split.
Qed.

(** ** One author among the others *)

Lemma flatten_split (c1 c2 : list (option (list author))) (l : list author) :
  flatten (c1 ++ Some l :: c2)
  = (x1 <- flatten c1 ;; x2 <- flatten c2 ;; Ok (x1 ++ l ++ x2)).
Proof.
  induction c1 as [|[l0|] c1 IH]; simpl; [reflexivity| |reflexivity].
  rewrite IH. destruct (flatten c1) as [x1|e]; simpl; [|reflexivity].
  destruct (flatten c2) as [x2|e]; simpl; [|reflexivity].
  now rewrite app_assoc.
Qed.

(** The author table of a result table, seen from one author [a] of one
    record: it raises whatever [a] is, or it is [a] between two lists that
    do not depend on [a]. *)
Lemma authors_df_around (cols : list string) (before after : list publication)
      (title : option string) (l1 l2 : list author) :
  (exists e, forall a,
      authors_df
        {| columns := cols;
           rows := before ++ {| journal_title := title;
                                authors := Some (l1 ++ a :: l2) |} :: after |}
      = Raise e)
  \/ (exists L1 L2, forall a,
         authors_df
           {| columns := cols;
              rows := before ++ {| journal_title := title;
                                   authors := Some (l1 ++ a :: l2) |} :: after |}
         = Ok (L1 ++ a :: L2)).
Proof.
  unfold authors_df, column. cbn [columns rows].
  destruct (existsb (String.eqb "authors") cols); cbn [Py.bind].
  - destruct (flatten (map authors before)) as [x1|e] eqn:E1.
    + destruct (flatten (map authors after)) as [x2|e] eqn:E2.
      * right. exists (x1 ++ l1), (l2 ++ x2). intros a.
        rewrite map_app. cbn [map authors]. rewrite flatten_split, E1, E2.
        cbn [Py.bind]. now rewrite <- !app_assoc.
      * left. exists e. intros a.
        rewrite map_app. cbn [map authors]. rewrite flatten_split, E1, E2.
        reflexivity.
    + left. exists e. intros a.
      rewrite map_app. cbn [map authors]. rewrite flatten_split, E1.
      reflexivity.
  - left. eauto.
Qed.

Lemma mapM_split {A B : Type} (f : A -> result B) (l1 l2 : list A) :
  mapM f (l1 ++ l2) = (y1 <- mapM f l1 ;; y2 <- mapM f l2 ;; Ok (y1 ++ y2)).
Proof.
  induction l1 as [|x l1 IH]; simpl.
  - destruct (mapM f l2); reflexivity.
  - destruct (f x) as [y|e]; simpl; [|reflexivity].
    rewrite IH. destruct (mapM f l1) as [y1|e]; simpl; [|reflexivity].
    destruct (mapM f l2) as [y2|e]; reflexivity.
Qed.

Lemma first_affiliation_hd (field : string) (x x' : list affiliation) :
  hd_error x = hd_error x' ->
  first_affiliation field x = first_affiliation field x'.
Proof.
  destruct x, x'; simpl; intros H; try discriminate; [reflexivity|].
  now injection H as ->.
Qed.

Lemma first_affiliation_counts_same_hd (field : string) (a a' : author)
      (L1 L2 : list author) :
  hd_error (affiliations a) = hd_error (affiliations a') ->
  (col <- authors_column "affiliations" affiliations (L1 ++ a :: L2) ;;
   vs <- mapM (first_affiliation field) col ;;
   top_table vs)
  = (col <- authors_column "affiliations" affiliations (L1 ++ a' :: L2) ;;
     vs <- mapM (first_affiliation field) col ;;
     top_table vs).
Proof.
  intros H.
  assert (E : forall b, authors_column "affiliations" affiliations (L1 ++ b :: L2)
                        = Ok (map affiliations L1 ++ affiliations b
                                  :: map affiliations L2)).
  { intros b. unfold authors_column. rewrite map_app. destruct L1; reflexivity. }
  rewrite !E. cbn [Py.bind]. rewrite !mapM_split. cbn [mapM].
  now rewrite (first_affiliation_hd field _ _ H).
Qed.

(** Only the first affiliation of an author is read: two authors with the
    same first affiliation (or both with none) are interchangeable, the
    country table and the institution table are the same with either of
    them, errors included. *)
Theorem only_first_affiliation_counts
        (cols : list string) (before after : list publication)
        (title : option string) (l1 l2 : list author) (a a' : author) :
  hd_error (affiliations a) = hd_error (affiliations a') ->
  let table_with (b : author) :=
    {| columns := cols;
       rows := before ++ {| journal_title := title;
                            authors := Some (l1 ++ b :: l2) |} :: after |} in
  plot_most_common_country (table_with a)
  = plot_most_common_country (table_with a')
  /\ plot_most_common_institutions (table_with a)
     = plot_most_common_institutions (table_with a').
Proof.
  intros H table_with. subst table_with. cbv beta.
  unfold plot_most_common_country, plot_most_common_institutions.
  destruct (authors_df_around cols before after title l1 l2)
    as [(e & He)|(L1 & L2 & HL)].
  - rewrite !He. split; reflexivity.
  - rewrite !HL. cbn [Py.bind].
    split; apply first_affiliation_counts_same_hd; exact H.
Qed.

(** ** A first affiliation without the field *)

Lemma dict_get_missing {V : Type} (d : dict V) (key : string) :
  ~ In key (map fst d) -> dict_get d key = Raise (KeyError key).
Proof.
  induction d as [|[k v] d IH]; simpl; intros H; [reflexivity|].
  destruct (String.eqb k key) eqn:E.
  - apply String.eqb_eq in E. exfalso. apply H. now left.
  - apply IH. intros Hin. apply H. now right.
Qed.

Lemma dict_get_raises {V : Type} (d : dict V) (key : string) (e : exn) :
  dict_get d key = Raise e -> e = KeyError key.
Proof.
  induction d as [|[k v] d IH]; simpl.
  - intros H. now injection H as <-.
  - destruct (String.eqb k key); [discriminate | exact IH].
Qed.

Lemma mapM_first_affiliation_raises (field : string)
      (col : list (list affiliation)) (x : list affiliation) (e : exn) :
  In x col ->
  first_affiliation field x = Raise e ->
  mapM (first_affiliation field) col = Raise (KeyError field).
Proof.
  intros Hin Hx. induction col as [|y col IH]; [contradiction|].
  simpl. destruct (first_affiliation field y) as [v|e'] eqn:Ey.
  - destruct Hin as [->|Hin]; [congruence|].
    cbn [Py.bind]. now rewrite (IH Hin).
  - cbn [Py.bind]. destruct y as [|d y]; simpl in Ey; [discriminate|].
    now rewrite (dict_get_raises _ _ _ Ey).
Qed.

(** If the first affiliation of some author has no country key, the country
    routine raises [KeyError] for that key, and likewise the institution
    routine for the name key: one such author is enough. *)
Theorem missing_field_raises_KeyError
        (df : DataFrame) (l : list author) (a : author)
        (first : affiliation) (others : list affiliation) :
  authors_df df = Ok l ->
  In a l ->
  affiliations a = first :: others ->
  (~ In "country" (map fst first) ->
   plot_most_common_country df = Raise (KeyError "country"))
  /\ (~ In "name" (map fst first) ->
      plot_most_common_institutions df = Raise (KeyError "name")).
Proof.
  intros Hl Hin Ha.
  assert (Hcol : authors_column "affiliations" affiliations l
                 = Ok (map affiliations l)).
  { destruct l; [contradiction | reflexivity]. }
  assert (Hx : In (first :: others) (map affiliations l)).
  { rewrite <- Ha. now apply in_map. }
  unfold plot_most_common_country, plot_most_common_institutions.
  rewrite Hl. cbn [Py.bind]. rewrite Hcol. cbn [Py.bind].
  split; intros Hkey.
  - rewrite (mapM_first_affiliation_raises "country" _ _ (KeyError "country") Hx);
      [reflexivity|].
    simpl. now apply dict_get_missing.
  - rewrite (mapM_first_affiliation_raises "name" _ _ (KeyError "name") Hx);
      [reflexivity|].
    simpl. now apply dict_get_missing.
Qed.

(** ** Records without a journal *)

(** A record without journal title adds nothing to the journal table: the
    table is the same with and without that record. *)
Theorem untitled_record_adds_no_journal
        (cols : list string) (before after : list publication)
        (who : option (list author)) :
  plot_most_common_journal
    {| columns := cols;
       rows := before ++ {| journal_title := None; authors := who |} :: after |}
  = plot_most_common_journal {| columns := cols; rows := before ++ after |}.
Proof.
  unfold plot_most_common_journal, column. cbn [columns rows].
  destruct (existsb (String.eqb "journal.title") cols); [|reflexivity].
  cbn [Py.bind]. rewrite !map_app. cbn [map journal_title].
  now rewrite value_counts_skips_missing.
Qed.

(** ** Null values *)

Lemma mapM_Ok {A : Type} (l : list A) : mapM (fun x => Ok x) l = Ok l.
Proof.
  induction l as [|x l IH]; simpl; [reflexivity | now rewrite IH].
Qed.

(** An author whose researcher id is null is left out of the author table,
    and an author whose first affiliation has a null country (a null name)
    is left out of the country (institution) table: when the routine returns
    a table without that author, it returns the same table with the author
    added. *)
Theorem null_values_are_left_out
        (cols : list string) (before after : list publication)
        (title : option string) (l1 l2 : list author) (a : author)
        (t : counts) :
  let with_a :=
    {| columns := cols;
       rows := before ++ {| journal_title := title;
                            authors := Some (l1 ++ a :: l2) |} :: after |} in
  let without_a :=
    {| columns := cols;
       rows := before ++ {| journal_title := title;
                            authors := Some (l1 ++ l2) |} :: after |} in
  (researcher_id a = None ->
   plot_publications_per_author without_a = Ok t ->
   plot_publications_per_author with_a = Ok t)
  /\ (first_affiliation "country" (affiliations a) = Ok None ->
      plot_most_common_country without_a = Ok t ->
      plot_most_common_country with_a = Ok t)
  /\ (first_affiliation "name" (affiliations a) = Ok None ->
      plot_most_common_institutions without_a = Ok t ->
      plot_most_common_institutions with_a = Ok t).
Proof.
  intros with_a without_a. subst with_a without_a.
  unfold plot_publications_per_author, plot_most_common_country,
    plot_most_common_institutions.
  repeat split; intros Ha;
    (destruct (authors_df _) as [L|e] eqn:EL at 1; cbn [Py.bind]; [|easy]);
    destruct (AggregationProofs.authors_df_insert _ _ _ _ _ _ a _ EL)
      as (L1 & L2 & -> & ->); cbn [Py.bind].
  - intros H.
    pose proof (AggregationProofs.counts_with_missing_author
                  "researcher_id" researcher_id
                  (fun x => Ok x) a L1 L2 t) as Hc.
    cbv beta in Hc. rewrite Ha in Hc. specialize (Hc eq_refl).
    destruct (authors_column "researcher_id" researcher_id (L1 ++ L2))
      as [col|e]; cbn [Py.bind] in *; [|discriminate].
    rewrite mapM_Ok in Hc. cbn [Py.bind] in Hc. specialize (Hc H).
    destruct (authors_column "researcher_id" researcher_id (L1 ++ a :: L2))
      as [col'|e]; cbn [Py.bind] in *; [|discriminate].
    rewrite mapM_Ok in Hc. exact Hc.
  - now apply AggregationProofs.counts_with_missing_author.
  - now apply AggregationProofs.counts_with_missing_author.
Qed.

End AnySort_.

Lemma no_author_raises_KeyError_witness :
  plot_most_common_country (sorter := first_seen_sorter)
    {| columns := ["id"; "authors"]; rows := [] |}
  = Raise (KeyError "affiliations").
Proof.
  apply (no_author_raises_KeyError (sorter := first_seen_sorter) {| columns := ["id"; "authors"]; rows := [] |}).
  - simpl. auto.
  - constructor.
Defined.

Lemma missing_authors_cell_raises_TypeError_witness :
  plot_publications_per_author (sorter := first_seen_sorter)
    {| columns := ["authors"];
       rows := rows three_records
               ++ [{| journal_title := Some "Nature"; authors := None |}] |}
  = Raise (TypeError "'float' object is not iterable").
Proof.
  apply (missing_authors_cell_raises_TypeError (sorter := first_seen_sorter)
           {| columns := ["authors"];
              rows := rows three_records
                      ++ [{| journal_title := Some "Nature"; authors := None |}] |}
           {| journal_title := Some "Nature"; authors := None |}).
  - simpl. auto.
  - simpl. auto 10.
  - reflexivity.
Defined.

Lemma only_first_affiliation_counts_witness :
  plot_most_common_country (sorter := first_seen_sorter)
    {| columns := ["authors"];
       rows := [{| journal_title := None;
                   authors := Some [{| researcher_id := Some "ur.9";
                                       affiliations :=
                                         [us_affiliation;
                                          [("country", Some "FR")]] |}] |}] |}
  = plot_most_common_country (sorter := first_seen_sorter)
      {| columns := ["authors"];
         rows := [{| journal_title := None;
                     authors := Some [us_author "ur.1"] |}] |}.
Proof.
  apply (only_first_affiliation_counts (sorter := first_seen_sorter) ["authors"] [] [] None [] []
           {| researcher_id := Some "ur.9";
              affiliations := [us_affiliation; [("country", Some "FR")]] |}
           (us_author "ur.1")).
  reflexivity.
Defined.

Lemma missing_field_raises_KeyError_witness :
  plot_most_common_country (sorter := first_seen_sorter)
    {| columns := ["authors"];
       rows := [{| journal_title := None;
                   authors := Some [us_author "ur.1";
                                    {| researcher_id := Some "ur.2";
                                       affiliations :=
                                         [[("name", Some "Inserm")]] |}] |}] |}
  = Raise (KeyError "country").
Proof.
  apply (proj1 (missing_field_raises_KeyError (sorter := first_seen_sorter)
                  {| columns := ["authors"];
                     rows := [{| journal_title := None;
                                 authors :=
                                   Some [us_author "ur.1";
                                         {| researcher_id := Some "ur.2";
                                            affiliations :=
                                              [[("name", Some "Inserm")]] |}] |}] |}
                  [us_author "ur.1";
                   {| researcher_id := Some "ur.2";
                      affiliations := [[("name", Some "Inserm")]] |}]
                  {| researcher_id := Some "ur.2";
                     affiliations := [[("name", Some "Inserm")]] |}
                  [("name", Some "Inserm")] []
                  eq_refl (or_intror (or_introl eq_refl)) eq_refl)).
  simpl. intros [H|[]]. discriminate H.
Defined.

Lemma null_values_are_left_out_witness :
  plot_most_common_country (sorter := first_seen_sorter)
    {| columns := ["authors"];
       rows := [{| journal_title := None;
                   authors := Some [us_author "ur.1";
                                    {| researcher_id := None;
                                       affiliations :=
                                         [[("country", None);
                                           ("name", Some "Inserm")]] |}] |}] |}
  = Ok [(Some "US", 1)].
Proof.
  apply (proj1 (proj2 (null_values_are_left_out (sorter := first_seen_sorter)
                         ["authors"] [] [] None [us_author "ur.1"] []
                         {| researcher_id := None;
                            affiliations :=
                              [[("country", None); ("name", Some "Inserm")]] |}
                         [(Some "US", 1)]))); reflexivity.
Defined.

End EdgeProofs.
